(** * Tax-Calculator, [taxcalc/validation/csv_in.py]

    A shallow embedding of the script that turns [puf.csv] into the
    randomized, constrained and sub-sampled [xYY.csv], and the properties its
    specification states about it.

    - NumPy's [float64] is Rocq's primitive binary64 [float]; [int64] is [Z]
      with the wrap-around of its addition written out. The cast of a float
      outside the int64 range is the one of x86-64, which gives [INT64_MIN].
    - A pandas [Series] is a list of cells of one dtype, a [DataFrame] an
      ordered list of named columns over a row count (the [RangeIndex] that
      [pd.read_csv] builds; every operation of the script keeps columns
      aligned on it).
    - A Python exception is the [Raise] case of [result].
    - NumPy's Mersenne Twister, [Records.USABLE_READ_VARS] and the iteration
      order of a Python [set] are not part of the script: they are Variables
      of the section that holds the script.
    - [TRACE] is [False] in the source and guards writes to stdout only; the
      embedding leaves those writes out. *)

From Stdlib Require Import ZArith List String Ascii Bool Lia Floats Permutation.
From Stdlib Require Import DecimalString.
Import ListNotations.
Local Open Scope Z_scope.

Set Warnings "-inexact-float".

(** ** Python exceptions *)

Inductive exn : Type :=
| KeyError (key : string)
| ValueError (msg : string)
| OverflowError
| IntCastingNaNError.

Inductive result (A : Type) : Type :=
| Ok (a : A)
| Raise (e : exn).

Arguments Ok {A} a.
Arguments Raise {A} e.

Definition bind {A B : Type} (r : result A) (k : A -> result B) : result B :=
  match r with
  | Ok a => k a
  | Raise e => Raise e
  end.

Notation "x <- e ;; k" := (bind e (fun x => k))
  (at level 61, e at next level, right associativity).

Fixpoint mapM {A B : Type} (f : A -> result B) (l : list A) : result (list B) :=
  match l with
  | [] => Ok []
  | a :: l' => b <- f a ;; bs <- mapM f l' ;; Ok (b :: bs)
  end.

(** Element-wise binary operation of two arrays of one length; NumPy raises
    [ValueError] (operands could not be broadcast together) otherwise. *)
Fixpoint zipM {A B C : Type} (f : A -> B -> C) (l : list A) (r : list B)
  : result (list C) :=
  match l, r with
  | [], [] => Ok []
  | a :: l', b :: r' => cs <- zipM f l' r' ;; Ok (f a b :: cs)
  | _, _ => Raise (ValueError "operands could not be broadcast together")
  end.

(** ** binary64 and int64 *)

Module Float64.

Definition INT64_MIN : Z := - 2 ^ 63.
Definition INT64_MAX : Z := 2 ^ 63 - 1.

Definition in_int64 (z : Z) : bool := (INT64_MIN <=? z) && (z <=? INT64_MAX).

(** int64 addition as NumPy performs it: two's complement, silently wrapping. *)
Definition wrap64 (z : Z) : Z := (z + 2 ^ 63) mod 2 ^ 64 - 2 ^ 63.
Definition add64 (a b : Z) : Z := wrap64 (a + b).

(** The binary64 nearest to an integer, ties to even: the conversion of an
    [int64] operand that meets a [float64] one, and of a Python [int]. *)
Definition of_Z (z : Z) : float := SF2Prim (binary_normalize prec emax z 0 false).

(** [m / 2^k] rounded to the nearest integer, ties to even. *)
Definition half_even (m k : positive) : Z :=
  let d := Z.pow_pos 2 k in
  let q := Z.pos m / d in
  match 2 * (Z.pos m mod d) ?= d with
  | Lt => q
  | Gt => q + 1
  | Eq => if Z.even q then q else q + 1
  end.

(** [np.rint], which [round(decimals=0)] applies to every float: the nearest
    integral float, ties to even, the sign kept (so [rint (-0.3)] is [-0.0]);
    zeros, infinities, NaN and floats that are integral already come back
    as they are. *)
Definition rint (f : float) : float :=
  match Prim2SF f with
  | S754_finite s m (Zneg k) =>
      let r := of_Z (half_even m k) in
      if s then (- r)%float else r
  | _ => f
  end.

(** [astype(np.int64)] on one float. pandas raises [IntCastingNaNError] on
    NaN and infinities and hands every finite float to NumPy's cast, which
    truncates towards zero. Outside the int64 range the cast is the
    conversion of the processor and raises nothing: on x86-64, the platform
    the embedding takes, it gives [INT64_MIN] whatever the sign. *)
Definition to_int64 (f : float) : result Z :=
  match Prim2SF f with
  | S754_zero _ => Ok 0
  | S754_finite s m e =>
      let a := match e with
               | Z0 => Z.pos m
               | Zpos k => Z.pos m * Z.pow_pos 2 k
               | Zneg k => Z.pos m / Z.pow_pos 2 k
               end in
      let z := if s then - a else a in
      if in_int64 z then Ok z else Ok INT64_MIN
  | S754_infinity _ | S754_nan => Raise IntCastingNaNError
  end.

(** Whether a float is finite and its integer part is an int64: the floats
    the cast takes to their integer part. *)
Definition fits_int64 (f : float) : bool :=
  match Prim2SF f with
  | S754_zero _ => true
  | S754_finite s m e =>
      let a := match e with
               | Z0 => Z.pos m
               | Zpos k => Z.pos m * Z.pow_pos 2 k
               | Zneg k => Z.pos m / Z.pow_pos 2 k
               end in
      in_int64 (if s then - a else a)
  | S754_infinity _ | S754_nan => false
  end.

(** Python's [float(n)] for an [int] operand of a float operation: raises
    [OverflowError] when [n] is too large for a binary64. *)
Definition of_pyint (z : Z) : result float :=
  let f := of_Z z in
  if is_infinity f then Raise OverflowError else Ok f.

(** [np.maximum] on floats: a NaN operand wins, otherwise the first operand
    unless it is smaller. *)
Definition fmaximum (a b : float) : float :=
  if is_nan a then a
  else if is_nan b then b
  else if (b <=? a)%float then a else b.

End Float64.

(** The sign of a finite float decides the sign of the integer part it
    casts to; zeros cast to zero and the other floats do not cast. *)
Definition sign_clear (x : spec_float) : Prop :=
  match x with
  | S754_finite s _ _ => s = false
  | _ => True
  end.

(** ** pandas: Series and DataFrame *)

Inductive Series : Type :=
| Int64 (v : list Z)
| Float64 (v : list float).

Inductive cell : Type :=
| CInt (z : Z)
| CFloat (f : float).

Definition series_len (s : Series) : nat :=
  match s with
  | Int64 v => List.length v
  | Float64 v => List.length v
  end.

Definition series_nth (s : Series) (i : nat) : option cell :=
  match s with
  | Int64 v => option_map CInt (nth_error v i)
  | Float64 v => option_map CFloat (nth_error v i)
  end.

(** [cell == 0] and [cell >= 0] as NumPy compares. *)
Definition cell_is_zero (c : cell) : bool :=
  match c with
  | CInt z => z =? 0
  | CFloat f => (f =? 0)%float
  end.

Definition cell_nonneg (c : cell) : bool :=
  match c with
  | CInt z => 0 <=? z
  | CFloat f => (0 <=? f)%float
  end.

(** Whether a cell, rounded to the nearest integer, is within the int64
    range: every int64 is, and a float is when it is finite and its rounded
    value is at most [2^63 - 1] in magnitude (or is [-2^63]). *)
Definition cell_fits_int64 (c : cell) : bool :=
  match c with
  | CInt _ => true
  | CFloat f => Float64.fits_int64 (Float64.rint f)
  end.

Record DataFrame : Type := mkDataFrame {
  nrows : nat;
  cols : list (string * Series)
}.

(** [list(xdf)]: the column names, in column order. *)
Definition columns (xdf : DataFrame) : list string := map fst (cols xdf).

Fixpoint lookup (name : string) (cs : list (string * Series)) : option Series :=
  match cs with
  | [] => None
  | (n, s) :: cs' => if String.eqb n name then Some s else lookup name cs'
  end.

(** [xdf[name]] *)
Definition getitem (xdf : DataFrame) (name : string) : result Series :=
  match lookup name (cols xdf) with
  | Some s => Ok s
  | None => Raise (KeyError name)
  end.

Fixpoint replace_col (name : string) (s : Series) (cs : list (string * Series))
  : list (string * Series) :=
  match cs with
  | [] => [(name, s)]
  | (n, s0) :: cs' =>
      if String.eqb n name then (n, s) :: cs' else (n, s0) :: replace_col name s cs'
  end.

(** [xdf[name] = s]: an existing column is replaced where it stands, a new
    one is appended. *)
Definition setitem (xdf : DataFrame) (name : string) (s : Series) : DataFrame :=
  mkDataFrame (nrows xdf) (replace_col name s (cols xdf)).

(** [xdf[name] = z] for a Python int: the scalar in every row. *)
Definition setitem_scalar (xdf : DataFrame) (name : string) (z : Z) : DataFrame :=
  setitem xdf name (Int64 (repeat z (nrows xdf))).

(** [xdf[name] = values] for a Python list: pandas raises [ValueError] when
    its length is not the number of rows. *)
Definition setitem_list (xdf : DataFrame) (name : string) (values : list Z)
  : result DataFrame :=
  if Nat.eqb (List.length values) (nrows xdf)
  then Ok (setitem xdf name (Int64 values))
  else Raise (ValueError "Length of values does not match length of index").

(** [xdf.drop(name, axis=1, inplace=True)] *)
Definition drop (xdf : DataFrame) (name : string) : result DataFrame :=
  match lookup name (cols xdf) with
  | Some _ =>
      Ok (mkDataFrame (nrows xdf)
            (filter (fun c => negb (String.eqb (fst c) name)) (cols xdf)))
  | None => Raise (KeyError name)
  end.

(** What [pd.read_csv] builds: distinct column names, every column as long
    as the index. *)
Definition wf (xdf : DataFrame) : Prop :=
  NoDup (columns xdf) /\
  Forall (fun c => series_len (snd c) = nrows xdf) (cols xdf).

(** [s.round(decimals=0)] *)
Definition round0 (s : Series) : Series :=
  match s with
  | Int64 v => Int64 v
  | Float64 v => Float64 (map Float64.rint v)
  end.

(** [s.astype(dtype=np.int64)] *)
Definition astype_int64 (s : Series) : result (list Z) :=
  match s with
  | Int64 v => Ok v
  | Float64 v => mapM Float64.to_int64 v
  end.

(** [s.min() < 0] on an int64 series; the minimum of an empty series is NaN,
    which is not below zero. *)
Definition series_min (v : list Z) : option Z :=
  match v with
  | [] => None
  | z :: v' => Some (fold_left Z.min v' z)
  end.

Definition min_lt_0 (v : list Z) : bool :=
  match series_min v with
  | Some m => m <? 0
  | None => false
  end.

(** [s.clip(lower=0)] *)
Definition clip_lower_0 (v : list Z) : list Z := map (Z.max 0) v.

(** [a + b] of two columns of one frame. *)
Definition series_add (a b : Series) : Series :=
  match a, b with
  | Int64 x, Int64 y => Int64 (map (fun p => Float64.add64 (fst p) (snd p)) (combine x y))
  | Int64 x, Float64 y =>
      Float64 (map (fun p => (Float64.of_Z (fst p) + snd p)%float) (combine x y))
  | Float64 x, Int64 y =>
      Float64 (map (fun p => (fst p + Float64.of_Z (snd p))%float) (combine x y))
  | Float64 x, Float64 y =>
      Float64 (map (fun p => (fst p + snd p)%float) (combine x y))
  end.

(** [np.maximum(a, b)] of two columns of one frame. *)
Definition series_maximum (a b : Series) : Series :=
  match a, b with
  | Int64 x, Int64 y => Int64 (map (fun p => Z.max (fst p) (snd p)) (combine x y))
  | Int64 x, Float64 y =>
      Float64 (map (fun p => Float64.fmaximum (Float64.of_Z (fst p)) (snd p)) (combine x y))
  | Float64 x, Int64 y =>
      Float64 (map (fun p => Float64.fmaximum (fst p) (Float64.of_Z (snd p))) (combine x y))
  | Float64 x, Float64 y =>
      Float64 (map (fun p => Float64.fmaximum (fst p) (snd p)) (combine x y))
  end.

Definition mem (name : string) (names : list string) : bool :=
  existsb (String.eqb name) names.

(** [str(n)] of a Python int, as [format] prints it. *)
Definition str (n : Z) : string := NilZero.string_of_int (Z.to_int n).

Definition nl : string := String (ascii_of_nat 10) EmptyString.

(** [range(n)] *)
Definition py_range (n : Z) : list Z := map Z.of_nat (seq 0 (Z.to_nat n)).

(** Rows [idx] of a column, in that order. *)
Definition take_rows (idx : list nat) (s : Series) : Series :=
  match s with
  | Int64 v => Int64 (map (fun i => nth i v 0) idx)
  | Float64 v => Float64 (map (fun i => nth i v PrimFloat.zero) idx)
  end.

(** What a run of the script leaves behind: the return code with the lines
    written to stderr and the CSV file written (name and table), or an
    exception nobody catches (Python prints the traceback and exits 1). *)
Inductive outcome : Type :=
| Done (rcode : Z) (stderr : list string) (csv : option (string * DataFrame))
| Uncaught (e : exn).

(** ** Test doubles

    A generator to run the script on concrete tables: [gauss] stands for the
    stream of standard normal deviates, and [normal] scales and shifts them
    as NumPy does ([loc + scale * gauss]); [choice] takes the last [n] rows,
    last first. *)

Module Demo.

Definition gauss_table : list float := [0.5; -0.25; -11; 1; 0; -0.75; 2; -1.5]%float.

Definition gauss (i : nat) : float := nth (i mod 8)%nat gauss_table 0%float.

Definition normal (pos : nat) (loc scale : float) (n : nat) : list float * nat :=
  (map (fun i => (loc + scale * gauss (pos + i))%float) (seq 0 n), (pos + n)%nat).

Definition mt_init (seed : Z) : nat := 0%nat.

Definition choice (seed : Z) (pop n : nat) : list nat := rev (seq (pop - n) n).

(** Three filing units; [e00300] holds fractions and a minimum of [-0.3]. *)
Definition xdf3 : DataFrame := mkDataFrame 3
  [("RECID"%string, Int64 [11; 12; 13]);
   ("FLPDYR"%string, Int64 [2009; 2009; 2009]);
   ("e00300"%string, Float64 [-0.3; 7; 100]%float);
   ("e00200"%string, Int64 [1000; 0; -50])].

(** [xdf3] after [randomize_data] for tax year 2013 with the draws above. *)
Definition xdf3_randomized : DataFrame := mkDataFrame 3
  [("RECID"%string, Int64 [11; 12; 13]);
   ("FLPDYR"%string, Int64 [2013; 2013; 2013]);
   ("e00300"%string, Int64 [0; 14; 0]);
   ("e00200"%string, Int64 [2370; 0; -97])].

(** One column of amounts that are not below zero, before and after
    [randomize_data]: the third draw takes 90 to -57, which the floor at
    zero turns into 0. *)
Definition xdf1 : DataFrame := mkDataFrame 3
  [("e00600"%string, Float64 [100.5; 0; 90]%float)].

Definition xdf1_randomized : DataFrame := mkDataFrame 3
  [("e00600"%string, Int64 [225; 0; 0]);
   ("FLPDYR"%string, Int64 [2013; 2013; 2013])].

(** A small [puf.csv]: every column the script drops or constrains, and
    none of the skip-list but [RECID] and [FLPDYR]. *)
Definition puf : DataFrame := mkDataFrame 3
  [("RECID"%string, Int64 [11; 12; 13]);
   ("FLPDYR"%string, Int64 [2009; 2009; 2009]);
   ("filer"%string, Int64 [1; 1; 0]);
   ("s006"%string, Float64 [150.25; 98.5; 1203.75]%float);
   ("cmbtp"%string, Float64 [0; 12.5; 0]%float);
   ("nu05"%string, Int64 [0; 1; 0]);
   ("nu13"%string, Int64 [1; 2; 0]);
   ("elderly_dependent"%string, Int64 [0; 0; 1]);
   ("e09700"%string, Int64 [0; 0; 0]);
   ("e09800"%string, Int64 [0; 0; 0]);
   ("e09900"%string, Int64 [0; 0; 0]);
   ("e11200"%string, Int64 [0; 0; 0]);
   ("e00200"%string, Int64 [52000; 0; 81500]);
   ("e00200p"%string, Int64 [52000; 0; 40000]);
   ("e00200s"%string, Int64 [0; 0; 41000]);
   ("e00900"%string, Int64 [0; -1200; 300]);
   ("e00900p"%string, Int64 [0; -1200; 0]);
   ("e00900s"%string, Int64 [0; 0; 300]);
   ("e02100"%string, Int64 [0; 0; 0]);
   ("e02100p"%string, Int64 [0; 0; 0]);
   ("e02100s"%string, Int64 [0; 0; 0]);
   ("e00600"%string, Int64 [500; 0; 80]);
   ("e00650"%string, Int64 [400; 0; 90]);
   ("e01500"%string, Int64 [0; 24000; 0]);
   ("e01700"%string, Int64 [0; 20000; 0])].

(** A registry that knows every column of [puf] and [MARS]. *)
Definition USABLE_READ_VARS : list string := "MARS"%string :: columns puf.

(** One order of the ten names of the drop set. *)
Definition drop_order : list string :=
  ["e11200"; "e09900"; "e09800"; "e09700"; "elderly_dependent";
   "nu13"; "nu05"; "cmbtp"; "s006"; "filer"]%string.

(** One run on [puf], tax year 2013, seed 42, stage by stage. *)

(** [puf] after the loop over the drop set. *)
Definition dropped : DataFrame := mkDataFrame 3
  [("RECID"%string, Int64 [11; 12; 13]);
   ("FLPDYR"%string, Int64 [2009; 2009; 2009]);
   ("e00200"%string, Int64 [52000; 0; 81500]);
   ("e00200p"%string, Int64 [52000; 0; 40000]);
   ("e00200s"%string, Int64 [0; 0; 41000]);
   ("e00900"%string, Int64 [0; -1200; 300]);
   ("e00900p"%string, Int64 [0; -1200; 0]);
   ("e00900s"%string, Int64 [0; 0; 300]);
   ("e02100"%string, Int64 [0; 0; 0]);
   ("e02100p"%string, Int64 [0; 0; 0]);
   ("e02100s"%string, Int64 [0; 0; 0]);
   ("e00600"%string, Int64 [500; 0; 80]);
   ("e00650"%string, Int64 [400; 0; 90]);
   ("e01500"%string, Int64 [0; 24000; 0]);
   ("e01700"%string, Int64 [0; 20000; 0])].

(** [dropped] after [randomize_data]; the generator has made 39 draws. *)
Definition randomized : DataFrame := mkDataFrame 3
  [("RECID"%string, Int64 [11; 12; 13]);
   ("FLPDYR"%string, Int64 [2013; 2013; 2013]);
   ("e00200"%string, Int64 [116740; 0; 0]);
   ("e00200p"%string, Int64 [123240; 0; 77300]);
   ("e00200s"%string, Int64 [0; 0; 92045]);
   ("e00900"%string, Int64 [0; 756; 711]);
   ("e00900p"%string, Int64 [0; -2319; 0]);
   ("e00900s"%string, Int64 [0; 0; 617]);
   ("e02100"%string, Int64 [0; 0; 0]);
   ("e02100p"%string, Int64 [0; 0; 0]);
   ("e02100s"%string, Int64 [0; 0; 0]);
   ("e00600"%string, Int64 [1185; 0; 155]);
   ("e00650"%string, Int64 [1048; 0; 202]);
   ("e01500"%string, Int64 [0; 0; 0]);
   ("e01700"%string, Int64 [0; 38650; 0])].

(** [randomized] after [constrain_data]. *)
Definition repaired : DataFrame := mkDataFrame 3
  [("RECID"%string, Int64 [11; 12; 13]);
   ("FLPDYR"%string, Int64 [2013; 2013; 2013]);
   ("e00200"%string, Int64 [123240; 0; 169345]);
   ("e00200p"%string, Int64 [123240; 0; 77300]);
   ("e00200s"%string, Int64 [0; 0; 92045]);
   ("e00900"%string, Int64 [0; -2319; 617]);
   ("e00900p"%string, Int64 [0; -2319; 0]);
   ("e00900s"%string, Int64 [0; 0; 617]);
   ("e02100"%string, Int64 [0; 0; 0]);
   ("e02100p"%string, Int64 [0; 0; 0]);
   ("e02100s"%string, Int64 [0; 0; 0]);
   ("e00600"%string, Int64 [1185; 0; 202]);
   ("e00650"%string, Int64 [1048; 0; 202]);
   ("e01500"%string, Int64 [0; 38650; 0]);
   ("e01700"%string, Int64 [0; 38650; 0])].

(** The table written to [x13.csv] for a sample of two. *)
Definition x13 : DataFrame := mkDataFrame 2
  [("RECID"%string, Int64 [1; 2]);
   ("FLPDYR"%string, Int64 [2013; 2013]);
   ("e00200"%string, Int64 [169345; 0]);
   ("e00200p"%string, Int64 [77300; 0]);
   ("e00200s"%string, Int64 [92045; 0]);
   ("e00900"%string, Int64 [617; -2319]);
   ("e00900p"%string, Int64 [0; -2319]);
   ("e00900s"%string, Int64 [617; 0]);
   ("e02100"%string, Int64 [0; 0]);
   ("e02100p"%string, Int64 [0; 0]);
   ("e02100s"%string, Int64 [0; 0]);
   ("e00600"%string, Int64 [202; 0]);
   ("e00650"%string, Int64 [202; 0]);
   ("e01500"%string, Int64 [0; 38650]);
   ("e01700"%string, Int64 [0; 38650])].

End Demo.

(** ** The script *)

Section CsvIn.

(** [DEBUG = False] in the source; [True] implies no variable randomization
    or record sampling. *)
Variable DEBUG : bool.

(** [Records.USABLE_READ_VARS], from the [taxcalc] package. *)
Variable USABLE_READ_VARS : list string.

(** NumPy's generator: the state [np.random.seed] installs for a valid seed,
    and [np.random.normal(loc, scale, size)], which returns the draws and the
    state it leaves. *)
Variable RandomState : Type.
Variable mt_init : Z -> RandomState.
Variable normal : RandomState -> float -> float -> nat -> list float * RandomState.

(** [RandomState(seed).choice(population, size=n, replace=False)], the row
    positions [DataFrame.sample] takes. *)
Variable choice : Z -> nat -> nat -> list nat.

(** What NumPy promises of it: [n] distinct positions below [population]. *)
Hypothesis choice_spec :
  forall seed population n,
    (n <= population)%nat ->
    List.length (choice seed population n) = n /\
    NoDup (choice seed population n) /\
    Forall (fun i => (i < population)%nat) (choice seed population n).

(** The order in which Python iterates over the set [DROP_VARS]. *)
Variable drop_order : list string.

Definition MAX_YEAR : Z := 2023.
Definition MAX_SEED : Z := 999999999.
Definition MAX_SIZE : Z := 100000.

Definition DROP_VARS : list string :=
  if DEBUG then ["filer"%string]
  else ["filer"; "s006"; "cmbtp";
        "nu05"; "nu13"; "elderly_dependent";
        "e09700"; "e09800"; "e09900"; "e11200"]%string.

Hypothesis drop_order_perm : Permutation drop_order DROP_VARS.

Definition SKIP_VARS : list string :=
  if DEBUG then USABLE_READ_VARS
  else ["RECID"; "MARS"; "DSI"; "MIDR"; "FLPDYR";
        "age_head"; "age_spouse";
        "XTOT"; "EIC"; "n24"; "f2441";
        "f6251"]%string.

Definition ANNUAL_DRIFT : float := 0.03%float.
Definition NORM_STD_DEV : float := 0.25%float.

Definition valid_seed (seed : Z) : bool := (0 <=? seed) && (seed <? 2 ^ 32).

(** [np.random.seed(seed)] *)
Definition np_random_seed (seed : Z) : result RandomState :=
  if valid_seed seed then Ok (mt_init seed)
  else Raise (ValueError "Seed must be between 0 and 2**32 - 1").

(** The body of the loop of [randomize_data] for a variable that is not
    skipped (lines 81-97). *)
Definition randomize_var (nmean nsdev : float) (num : nat)
  (xdf : DataFrame) (g : RandomState) (varname : string)
  : result (DataFrame * RandomState) :=
  old <- getitem xdf varname ;;
  oldint <- astype_int64 (round0 old) ;;
  let (rfactor, g') := normal g nmean nsdev num in
  addon <- zipM (fun z r => (Float64.of_Z z * r)%float) oldint rfactor ;;
  raw <- zipM (fun z a => (Float64.of_Z z + a)%float) oldint (map Float64.rint addon) ;;
  raw <- mapM Float64.to_int64 raw ;;
  let new := if min_lt_0 oldint then raw else clip_lower_0 raw in
  Ok (setitem xdf varname (Int64 new), g').

(** [for varname in list(xdf)] *)
Fixpoint randomize_loop (nmean nsdev : float) (num : nat) (names : list string)
  (xdf : DataFrame) (g : RandomState) : result (DataFrame * RandomState) :=
  match names with
  | [] => Ok (xdf, g)
  | varname :: rest =>
      if mem varname SKIP_VARS
      then randomize_loop nmean nsdev num rest xdf g
      else
        r <- randomize_var nmean nsdev num xdf g varname ;;
        randomize_loop nmean nsdev num rest (fst r) (snd r)
  end.

(** [randomize_data(xdf, taxyear, rnseed)]: the frame as the call leaves it,
    and the state of the global generator. *)
Definition randomize_data (xdf : DataFrame) (taxyear rnseed : Z)
  : result (DataFrame * RandomState) :=
  let xdf := setitem_scalar xdf "FLPDYR" taxyear in
  let num := nrows xdf in
  d <- Float64.of_pyint (taxyear - 2009) ;;
  let nmean := (1.0 + ANNUAL_DRIFT * d)%float in
  let nsdev := NORM_STD_DEV in
  g <- np_random_seed rnseed ;;
  randomize_loop nmean nsdev num (columns xdf) xdf g.

(** [constrain_data(xdf)] *)
Definition constrain_data (xdf : DataFrame) : result DataFrame :=
  if DEBUG then Ok xdf
  else
    p <- getitem xdf "e00200p" ;;
    s <- getitem xdf "e00200s" ;;
    let xdf := setitem xdf "e00200" (series_add p s) in
    p <- getitem xdf "e00900p" ;;
    s <- getitem xdf "e00900s" ;;
    let xdf := setitem xdf "e00900" (series_add p s) in
    p <- getitem xdf "e02100p" ;;
    s <- getitem xdf "e02100s" ;;
    let xdf := setitem xdf "e02100" (series_add p s) in
    a <- getitem xdf "e00600" ;;
    b <- getitem xdf "e00650" ;;
    let xdf := setitem xdf "e00600" (series_maximum a b) in
    a <- getitem xdf "e01500" ;;
    b <- getitem xdf "e01700" ;;
    let xdf := setitem xdf "e01500" (series_maximum a b) in
    Ok xdf.

(** The columns [constrain_data] reads, in the order it reads them. *)
Definition CONSTRAINT_READS : list string :=
  ["e00200p"; "e00200s"; "e00900p"; "e00900s"; "e02100p"; "e02100s";
   "e00600"; "e00650"; "e01500"; "e01700"]%string.

(** [xdf.sample(n=n, random_state=seed)]: without replacement; every
    refusal of pandas and NumPy here is a [ValueError]. *)
Definition sample (xdf : DataFrame) (n seed : Z) : result DataFrame :=
  if n <? 0
  then Raise (ValueError "A negative number of rows requested. Please provide `n` >= 0.")
  else if negb (valid_seed seed)
  then Raise (ValueError "Seed must be between 0 and 2**32 - 1")
  else if Z.of_nat (nrows xdf) <? n
  then Raise (ValueError "Cannot take a larger sample than population when 'replace=False'")
  else
    let idx := choice seed (nrows xdf) (Z.to_nat n) in
    Ok (mkDataFrame (List.length idx)
          (map (fun c => (fst c, take_rows idx (snd c))) (cols xdf))).

(** ['ERROR: variable {} already dropped'.format(var)] and the newline. *)
Definition already_dropped (var : string) : string :=
  ("ERROR: variable " ++ var ++ " already dropped" ++ nl)%string.

(** The loop of [main] over [DROP_VARS] (lines 143-148): the frame without
    the dropped columns, or the outcome that ends the run. *)
Fixpoint drop_loop (vars : list string) (xdf : DataFrame) : DataFrame + outcome :=
  match vars with
  | [] => inl xdf
  | var :: rest =>
      if negb (mem var USABLE_READ_VARS)
      then inr (Done 1 [already_dropped var] None)
      else
        match drop xdf var with
        | Ok xdf' => drop_loop rest xdf'
        | Raise e => inr (Uncaught e)
        end
  end.

(** Lines 159-175 of [main]: sampling, the new [RECID] and the CSV file. *)
Definition sample_and_write (xdf : DataFrame) (taxyear rnseed ssize : Z) : outcome :=
  match (if DEBUG
         then Ok (Z.of_nat (nrows xdf), xdf)
         else xxdf <- sample xdf ssize rnseed ;; Ok (ssize, xxdf)) with
  | Raise e => Uncaught e
  | Ok (sample_size, xxdf) =>
      match setitem_list xxdf "RECID" (map (fun rid => rid + 1) (py_range sample_size)) with
      | Raise e => Uncaught e
      | Ok xxdf =>
          Done 0 [] (Some (("x" ++ str (taxyear mod 100) ++ ".csv")%string, xxdf))
      end
  end.

(** [main(taxyear, rnseed, ssize)]; [puf] is what [pd.read_csv] reads from
    [puf.csv], [None] when the file is not there. *)
Definition main (puf : option DataFrame) (taxyear rnseed ssize : Z) : outcome :=
  match puf with
  | None => Done 1 [("ERROR: puf.csv file not found in top-level directory" ++ nl)%string] None
  | Some xdf =>
      match drop_loop drop_order xdf with
      | inr o => o
      | inl xdf =>
          match randomize_data xdf taxyear rnseed with
          | Raise e => Uncaught e
          | Ok (xdf, _) =>
              match constrain_data xdf with
              | Raise e => Uncaught e
              | Ok xdf => sample_and_write xdf taxyear rnseed ssize
              end
          end
      end
  end.

(** The [__main__] block after [parse_args] (lines 196-215); [ARGS] are the
    three parsed integers, a missing one being [0]. *)
Definition script (puf : option DataFrame) (YEAR SEED SIZE : Z) : outcome :=
  let ARGS_ERROR := false in
  let stderr := [] in
  let '(stderr, ARGS_ERROR) :=
    if (YEAR <? 2013) || (YEAR >? MAX_YEAR)
    then
      let RSTR := ("[2013," ++ str MAX_YEAR ++ "] range")%string in
      (stderr ++ [("ERROR: YEAR " ++ str YEAR ++ " not in " ++ RSTR ++ nl)%string], true)
    else (stderr, ARGS_ERROR) in
  let '(stderr, ARGS_ERROR) :=
    if (SEED <? 1) || (SEED >? MAX_SEED)
    then
      let RSTR := ("[1," ++ str MAX_SEED ++ "] range")%string in
      (stderr ++ [("ERROR: SEED " ++ str SEED ++ " not in " ++ RSTR ++ nl)%string], true)
    else (stderr, ARGS_ERROR) in
  let '(stderr, ARGS_ERROR) :=
    if (SIZE <? 1) || (SIZE >? MAX_SIZE)
    then
      let RSTR := ("[1," ++ str MAX_SIZE ++ "] range")%string in
      (stderr ++ [("ERROR: SIZE " ++ str SIZE ++ " not in " ++ RSTR ++ nl)%string], true)
    else (stderr, ARGS_ERROR) in
  if ARGS_ERROR
  then Done 1 (stderr ++ [("USAGE: python csv_in.py --help" ++ nl)%string]) None
  else main puf YEAR SEED SIZE.

(** ** The words of the specification

    What section 4.2 of the specification says of one row and of one column,
    to be compared with what [randomize_data] stores. *)

(** Steps 3 and 4: [oldint + round(oldint * rfactor)], as a 64-bit integer. *)
Definition spec_new_value (oldint : Z) (rfactor : float) : result Z :=
  Float64.to_int64
    (Float64.of_Z oldint + Float64.rint (Float64.of_Z oldint * rfactor))%float.

(** The state of the generator after [k] calls of [normal]. *)
Fixpoint after_draws (nmean nsdev : float) (num : nat) (g : RandomState) (k : nat)
  : RandomState :=
  match k with
  | O => g
  | S k' => after_draws nmean nsdev num (snd (normal g nmean nsdev num)) k'
  end.

(** The names that stand before [v] in [names]. *)
Fixpoint before (v : string) (names : list string) : list string :=
  match names with
  | [] => []
  | n :: rest => if String.eqb n v then [] else n :: before v rest
  end.

(** How many columns are randomized before column [v] is. *)
Definition draw_index (v : string) (names : list string) : nat :=
  List.length (filter (fun n => negb (mem n SKIP_VARS)) (before v names)).

(** [raw] holds, row by row, the new value of steps 3 and 4 for the rounded
    values [oldint] and the draws [rfactor], one draw per row. *)
Definition raw_values (rfactor : list float) (oldint raw : list Z) : Prop :=
  List.length rfactor = List.length oldint /\
  List.length raw = List.length oldint /\
  forall i z r,
    nth_error oldint i = Some z ->
    nth_error rfactor i = Some r ->
    exists x, spec_new_value z r = Ok x /\ nth_error raw i = Some x.

(** Column [new] is column [old] randomized with the draws the generator
    makes in state [g]: steps 1 to 5. *)
Definition randomized_column (nmean nsdev : float) (num : nat) (g : RandomState)
  (old new : Series) : Prop :=
  exists oldint raw,
    astype_int64 (round0 old) = Ok oldint /\
    raw_values (fst (normal g nmean nsdev num)) oldint raw /\
    new = Int64 (if min_lt_0 oldint then raw else clip_lower_0 raw).

(** A split-aggregate identity of section 4.3: in every row [total] is
    [partA + partB], the int64 sum NumPy computes, which is the sum of the
    integers whenever that fits 64 bits. *)
Definition sum_identity (xdf : DataFrame) (total partA partB : string) : Prop :=
  exists t a b,
    lookup total (cols xdf) = Some (Int64 t) /\
    lookup partA (cols xdf) = Some (Int64 a) /\
    lookup partB (cols xdf) = Some (Int64 b) /\
    List.length t = nrows xdf /\
    List.length a = nrows xdf /\
    List.length b = nrows xdf /\
    forall i x y,
      nth_error a i = Some x -> nth_error b i = Some y ->
      nth_error t i = Some (Float64.add64 x y) /\
      (Float64.in_int64 (x + y) = true -> nth_error t i = Some (x + y)).

(** A dominance pair of section 4.3: in every row [column >= related]. *)
Definition dominance (xdf : DataFrame) (column related : string) : Prop :=
  exists c r,
    lookup column (cols xdf) = Some (Int64 c) /\
    lookup related (cols xdf) = Some (Int64 r) /\
    List.length c = nrows xdf /\
    List.length r = nrows xdf /\
    forall i x y,
      nth_error c i = Some x -> nth_error r i = Some y -> y <= x.

(** ** Lists, [result] and frames *)

Lemma bind_Ok {A B : Type} (r : result A) (k : A -> result B) (b : B) :
  bind r k = Ok b -> exists a, r = Ok a /\ k a = Ok b.
Proof.
  destruct r as [a|e]; simpl; intros H; [exists a; split; [reflexivity|exact H] | discriminate].
Qed.

Lemma mapM_nth {A B : Type} (f : A -> result B) (l : list A) (bs : list B) :
  mapM f l = Ok bs ->
  List.length bs = List.length l /\
  forall i a, nth_error l i = Some a -> exists b, f a = Ok b /\ nth_error bs i = Some b.
Proof.
  revert bs; induction l as [|a l IH]; simpl; intros bs H.
  - inversion H; subst; split; [reflexivity|]. intros [|i] a0 Hn; discriminate.
  - apply bind_Ok in H as (b & Hb & H). apply bind_Ok in H as (bs' & Hbs & H).
    inversion H; subst; clear H. destruct (IH _ Hbs) as [Hlen Hnth].
    split; [simpl; congruence|].
    intros [|i] a0 Hn; simpl in *.
    + inversion Hn; subst. exists b; auto.
    + apply Hnth; exact Hn.
Qed.

Lemma zipM_nth {A B C : Type} (f : A -> B -> C) (l : list A) (r : list B) (cs : list C) :
  zipM f l r = Ok cs ->
  List.length r = List.length l /\ List.length cs = List.length l /\
  forall i a b, nth_error l i = Some a -> nth_error r i = Some b ->
                nth_error cs i = Some (f a b).
Proof.
  revert r cs; induction l as [|a l IH]; intros [|b r] cs H; simpl in H; try discriminate.
  - inversion H; subst. repeat split; intros [|i]; discriminate.
  - apply bind_Ok in H as (cs' & Hcs & H). inversion H; subst; clear H.
    destruct (IH _ _ Hcs) as (Hr & Hc & Hnth).
    repeat split; simpl; try congruence.
    intros [|i] a0 b0 Ha Hb; simpl in *.
    + congruence.
    + apply Hnth; assumption.
Qed.

Lemma lookup_replace_same (name : string) (s : Series) (cs : list (string * Series)) :
  lookup name (replace_col name s cs) = Some s.
Proof.
  induction cs as [|[n s0] cs IH]; simpl.
  - rewrite String.eqb_refl; reflexivity.
  - destruct (String.eqb n name) eqn:E; simpl; rewrite E; [reflexivity | exact IH].
Qed.

Lemma lookup_replace_other (name v : string) (s : Series) (cs : list (string * Series)) :
  v <> name -> lookup v (replace_col name s cs) = lookup v cs.
Proof.
  intros Hne; induction cs as [|[n s0] cs IH]; simpl.
  - destruct (String.eqb_spec name v); [congruence | reflexivity].
  - destruct (String.eqb_spec n name) as [->|Hn]; simpl.
    + destruct (String.eqb_spec name v); [congruence | reflexivity].
    + destruct (String.eqb n v); [reflexivity | exact IH].
Qed.

Lemma lookup_In (v : string) (cs : list (string * Series)) :
  In v (map fst cs) <-> exists s, lookup v cs = Some s.
Proof.
  induction cs as [|[n s0] cs IH]; simpl.
  - split; [tauto | intros [s H]; discriminate].
  - destruct (String.eqb_spec n v) as [->|Hn].
    + split; [intros _; eauto | auto].
    + rewrite <- IH. split; [intros [H|H]; [congruence | exact H] | auto].
Qed.

Lemma columns_replace_present (name : string) (s : Series) (cs : list (string * Series)) :
  In name (map fst cs) -> map fst (replace_col name s cs) = map fst cs.
Proof.
  induction cs as [|[n s0] cs IH]; simpl; [tauto|].
  intros H. destruct (String.eqb_spec n name) as [->|Hn]; simpl; [reflexivity|].
  f_equal. apply IH. destruct H; [congruence | assumption].
Qed.

Lemma columns_replace_absent (name : string) (s : Series) (cs : list (string * Series)) :
  ~ In name (map fst cs) -> map fst (replace_col name s cs) = map fst cs ++ [name].
Proof.
  induction cs as [|[n s0] cs IH]; simpl; [reflexivity|].
  intros H. destruct (String.eqb_spec n name) as [->|Hn]; simpl; [tauto|].
  f_equal. apply IH. tauto.
Qed.

(** ** The loop of [randomize_data] *)

Lemma randomize_var_spec (nmean nsdev : float) (num : nat) (xdf xdf1 : DataFrame)
  (g g1 : RandomState) (v : string) :
  randomize_var nmean nsdev num xdf g v = Ok (xdf1, g1) ->
  exists old new,
    lookup v (cols xdf) = Some old /\
    randomized_column nmean nsdev num g old new /\
    xdf1 = setitem xdf v new /\
    g1 = snd (normal g nmean nsdev num).
Proof.
  unfold randomize_var, getitem. intros H.
  destruct (lookup v (cols xdf)) as [old|] eqn:Hold; [|discriminate].
  simpl in H. apply bind_Ok in H as (oldint & Hoi & H).
  destruct (normal g nmean nsdev num) as [rfactor g2] eqn:Hn.
  apply bind_Ok in H as (addon & Hadd & H).
  apply bind_Ok in H as (rawf & Hrawf & H).
  apply bind_Ok in H as (raw & Hraw & H).
  inversion H; subst; clear H.
  destruct (zipM_nth _ _ _ _ Hadd) as (Lr & La & Nadd).
  destruct (zipM_nth _ _ _ _ Hrawf) as (Lm & Lf & Nrawf).
  destruct (mapM_nth _ _ _ Hraw) as (Lraw & Nraw).
  exists old, (Int64 (if min_lt_0 oldint then raw else clip_lower_0 raw)).
  split; [reflexivity|]. split; [|split; reflexivity].
  unfold randomized_column. rewrite Hn. exists oldint, raw. simpl.
  split; [exact Hoi|]. split; [|reflexivity].
  split; [exact Lr|]. split; [congruence|].
  intros i z r Hz Hr.
  pose proof (Nadd i z r Hz Hr) as Ha.
  assert (Hra : nth_error (map Float64.rint addon) i
                = Some (Float64.rint (Float64.of_Z z * r)%float))
    by (rewrite nth_error_map, Ha; reflexivity).
  pose proof (Nrawf i z _ Hz Hra) as Hf.
  destruct (Nraw i _ Hf) as (x & Hx & Hnx).
  exists x. split; [exact Hx | exact Hnx].
Qed.

Lemma randomize_loop_frame (nmean nsdev : float) (num : nat) (names : list string) :
  forall xdf g xdf' g',
    randomize_loop nmean nsdev num names xdf g = Ok (xdf', g') ->
    nrows xdf' = nrows xdf /\
    forall v, ~ In v names \/ mem v SKIP_VARS = true ->
              lookup v (cols xdf') = lookup v (cols xdf).
Proof.
  induction names as [|n rest IH]; simpl; intros xdf g xdf' g' H.
  - inversion H; subst; auto.
  - destruct (mem n SKIP_VARS) eqn:Hskip.
    + destruct (IH _ _ _ _ H) as [Hrows Hfr]. split; [exact Hrows|].
      intros v Hv. apply Hfr. destruct Hv as [Hv|Hv]; [left; tauto | right; exact Hv].
    + apply bind_Ok in H as ([xdf1 g1] & Hvar & H). simpl in H.
      destruct (randomize_var_spec _ _ _ _ _ _ _ _ Hvar) as (old & new & _ & _ & -> & _).
      destruct (IH _ _ _ _ H) as [Hrows Hfr]. split; [exact Hrows|].
      intros v Hv. rewrite Hfr.
      * simpl. apply lookup_replace_other. intros ->. destruct Hv; [tauto | congruence].
      * destruct Hv as [Hv|Hv]; [left; tauto | right; exact Hv].
Qed.

Lemma before_cons_other (v n : string) (rest : list string) :
  n <> v -> before v (n :: rest) = n :: before v rest.
Proof. intros H; simpl. destruct (String.eqb_spec n v); [congruence | reflexivity]. Qed.

Lemma randomize_loop_spec (nmean nsdev : float) (num : nat) (names : list string) :
  forall xdf g xdf' g',
    NoDup names ->
    randomize_loop nmean nsdev num names xdf g = Ok (xdf', g') ->
    forall v, In v names -> mem v SKIP_VARS = false ->
      exists old new,
        lookup v (cols xdf) = Some old /\
        lookup v (cols xdf') = Some new /\
        randomized_column nmean nsdev num
          (after_draws nmean nsdev num g (draw_index v names)) old new.
Proof.
  induction names as [|n rest IH]; simpl; intros xdf g xdf' g' Hnd H v Hin Hv; [tauto|].
  inversion Hnd as [|? ? Hnotin Hnd']; subst.
  destruct (mem n SKIP_VARS) eqn:Hskip.
  - destruct Hin as [->|Hin]; [congruence|].
    destruct (IH _ _ _ _ Hnd' H v Hin Hv) as (old & new & Ho & Hn & Hc).
    exists old, new. split; [exact Ho|]. split; [exact Hn|].
    assert (Hne : n <> v) by (intros ->; congruence).
    unfold draw_index in *. rewrite (before_cons_other _ _ _ Hne). simpl.
    rewrite Hskip. simpl. exact Hc.
  - apply bind_Ok in H as ([xdf1 g1] & Hvar & H). simpl in H.
    destruct (randomize_var_spec _ _ _ _ _ _ _ _ Hvar) as (old & new & Ho & Hc & -> & ->).
    destruct Hin as [->|Hin].
    + exists old, new. split; [exact Ho|]. split.
      * destruct (randomize_loop_frame _ _ _ _ _ _ _ _ H) as [_ Hfr].
        rewrite Hfr by (left; exact Hnotin). simpl. apply lookup_replace_same.
      * unfold draw_index. simpl. rewrite String.eqb_refl. simpl. exact Hc.
    + assert (Hne : n <> v) by (intros ->; tauto).
      destruct (IH _ _ _ _ Hnd' H v Hin Hv) as (old' & new' & Ho' & Hn' & Hc').
      exists old', new'. split.
      * rewrite <- Ho'. simpl. symmetry. apply lookup_replace_other. congruence.
      * split; [exact Hn'|].
        unfold draw_index in *. rewrite (before_cons_other _ _ _ Hne). simpl.
        rewrite Hskip. simpl. exact Hc'.
Qed.

Lemma randomize_data_unfold (xdf xdf' : DataFrame) (taxyear rnseed : Z) (g' : RandomState) :
  randomize_data xdf taxyear rnseed = Ok (xdf', g') ->
  exists d,
    Float64.of_pyint (taxyear - 2009) = Ok d /\
    valid_seed rnseed = true /\
    randomize_loop (1.0 + ANNUAL_DRIFT * d)%float NORM_STD_DEV (nrows xdf)
      (columns (setitem_scalar xdf "FLPDYR" taxyear))
      (setitem_scalar xdf "FLPDYR" taxyear) (mt_init rnseed) = Ok (xdf', g').
Proof.
  unfold randomize_data. intros H.
  apply bind_Ok in H as (d & Hd & H). apply bind_Ok in H as (g & Hg & H).
  unfold np_random_seed in Hg. destruct (valid_seed rnseed) eqn:Hs; [|discriminate].
  inversion Hg; subst. exists d. auto.
Qed.

Lemma before_app_in (v : string) (l l' : list string) :
  In v l -> before v (l ++ l') = before v l.
Proof.
  induction l as [|n l IH]; simpl; [tauto|].
  intros H. destruct (String.eqb_spec n v) as [->|Hn]; [reflexivity|].
  f_equal. apply IH. destruct H; [congruence | assumption].
Qed.

Lemma columns_setitem (xdf : DataFrame) (name : string) (s : Series) :
  columns (setitem xdf name s) = columns xdf \/
  (~ In name (columns xdf) /\ columns (setitem xdf name s) = columns xdf ++ [name]).
Proof.
  unfold columns, setitem; simpl.
  destruct (in_dec string_dec name (map fst (cols xdf))) as [H|H].
  - left. apply columns_replace_present; exact H.
  - right. split; [exact H | apply columns_replace_absent; exact H].
Qed.

Lemma NoDup_columns_setitem (xdf : DataFrame) (name : string) (s : Series) :
  NoDup (columns xdf) -> NoDup (columns (setitem xdf name s)).
Proof.
  intros Hnd. destruct (columns_setitem xdf name s) as [->|[Hn ->]]; [exact Hnd|].
  apply NoDup_app; [exact Hnd | constructor; [simpl; tauto | constructor] |].
  intros x Hx [<-|[]]. tauto.
Qed.

Lemma min_lt_0_false (l : list Z) :
  min_lt_0 l = false <-> Forall (fun z => 0 <= z) l.
Proof.
  unfold min_lt_0, series_min. destruct l as [|z l]; [split; auto|].
  assert (G : forall l a, (fold_left Z.min l a <? 0) = false <->
                          0 <= a /\ Forall (fun z => 0 <= z) l).
  { clear. induction l as [|b l IH]; intros a; simpl.
    - rewrite Z.ltb_ge. split; [auto | tauto].
    - rewrite IH. split.
      + intros [H1 H2]. split; [lia|]. constructor; [lia | exact H2].
      + intros [H1 H2]. inversion H2; subst. split; [lia | assumption]. }
  rewrite G. split.
  - intros [H1 H2]; constructor; assumption.
  - intros H; inversion H; subst; auto.
Qed.


Lemma of_pyint_Ok (z : Z) (d : float) :
  Float64.of_pyint z = Ok d -> d = Float64.of_Z z.
Proof.
  unfold Float64.of_pyint. destruct (is_infinity (Float64.of_Z z)); congruence.
Qed.

(** What [randomize_data] leaves in a column it randomizes: the shared
    description behind the theorems on new values, the floor at zero, zeros
    and signs. *)
Lemma randomize_data_column (xdf xdf' : DataFrame) (taxyear rnseed : Z)
  (g' : RandomState) (v : string) :
  NoDup (columns xdf) ->
  randomize_data xdf taxyear rnseed = Ok (xdf', g') ->
  In v (columns xdf) -> v <> "FLPDYR"%string -> mem v SKIP_VARS = false ->
  exists old new,
    lookup v (cols xdf) = Some old /\
    lookup v (cols xdf') = Some new /\
    let nmean := (1.0 + ANNUAL_DRIFT * Float64.of_Z (taxyear - 2009))%float in
    randomized_column nmean NORM_STD_DEV (nrows xdf)
      (after_draws nmean NORM_STD_DEV (nrows xdf) (mt_init rnseed)
         (draw_index v (columns xdf)))
      old new.
Proof.
  intros Hnd H Hin Hne Hskip.
  apply randomize_data_unfold in H as (d & Hd & _ & H).
  apply of_pyint_Ok in Hd. subst d.
  set (xdf1 := setitem_scalar xdf "FLPDYR" taxyear) in *.
  assert (Hnd1 : NoDup (columns xdf1)) by (apply NoDup_columns_setitem; exact Hnd).
  assert (Hcols : columns xdf1 = columns xdf \/
                  columns xdf1 = columns xdf ++ ["FLPDYR"%string]).
  { destruct (columns_setitem xdf "FLPDYR" (Int64 (repeat taxyear (nrows xdf))))
      as [E|[_ E]]; [left | right]; exact E. }
  assert (Hin1 : In v (columns xdf1)).
  { destruct Hcols as [->| ->]; [exact Hin | apply in_or_app; left; exact Hin]. }
  destruct (randomize_loop_spec _ _ _ _ _ _ _ _ Hnd1 H v Hin1 Hskip)
    as (old & new & Ho & Hn & Hc).
  exists old, new. split.
  - rewrite <- Ho. unfold xdf1, setitem_scalar, setitem. simpl.
    symmetry. apply lookup_replace_other. exact Hne.
  - split; [exact Hn|]. simpl.
    replace (draw_index v (columns xdf)) with (draw_index v (columns xdf1)); [exact Hc|].
    unfold draw_index. destruct Hcols as [->| ->]; [reflexivity|].
    rewrite before_app_in by exact Hin. reflexivity.
Qed.

(** ** Skip-list invariance *)

(** C1, as amended: after [randomize_data], every column named in
    [SKIP_VARS] holds what it held before, except [FLPDYR], which holds the
    tax year in every row. *)
Theorem skip_columns_kept_but_FLPDYR (xdf xdf' : DataFrame) (taxyear rnseed : Z)
  (g' : RandomState) (v : string) :
  randomize_data xdf taxyear rnseed = Ok (xdf', g') ->
  mem v SKIP_VARS = true ->
  lookup v (cols xdf') =
    if String.eqb v "FLPDYR"
    then Some (Int64 (repeat taxyear (nrows xdf)))
    else lookup v (cols xdf).
Proof.
  intros H Hskip.
  apply randomize_data_unfold in H as (d & _ & _ & H).
  apply randomize_loop_frame in H as [_ Hfr].
  rewrite Hfr by (right; exact Hskip).
  unfold setitem_scalar, setitem; simpl.
  destruct (String.eqb_spec v "FLPDYR") as [->|Hne].
  - apply lookup_replace_same.
  - apply lookup_replace_other. exact Hne.
Qed.

(** ** New values *)


(** ** The floor at zero *)


(** ** binary64 facts *)

(** The rounding and the casts on a few values, as IEEE 754 and NumPy have
    them: ties go to the even integer, the sign of a rounded zero is kept,
    the cast truncates towards zero, refuses what is no number and takes
    a float outside the int64 range to [INT64_MIN]. *)
Example rint_examples :
  map Float64.rint [0.5; 1.5; 2.5; -0.3; -7.5; 124.50000000000001; 1e300]%float
  = [0; 2; 2; -0; -8; 125; 1e300]%float.
Proof. vm_compute. reflexivity. Qed.

Example to_int64_examples :
  map Float64.to_int64
    [7.9; -7.9; -0; 9007199254740992; 1e19; -1e19; infinity; nan]%float
  = [Ok 7; Ok (-7); Ok 0; Ok 9007199254740992;
     Ok Float64.INT64_MIN; Ok Float64.INT64_MIN;
     Raise IntCastingNaNError; Raise IntCastingNaNError].
Proof. vm_compute. reflexivity. Qed.

Example of_Z_examples :
  map Float64.of_Z [0; -50; 9007199254740993; 9007199254740995]
  = [0; -50; 9007199254740992; 9007199254740996]%float.
Proof. vm_compute. reflexivity. Qed.

Lemma binary_round_aux_sign_clear (m e : Z) (l : location) :
  sign_clear (binary_round_aux prec emax false m e l).
Proof.
  unfold binary_round_aux.
  destruct (shr_fexp prec emax m e l) as [mrs1 e1].
  destruct (shr_fexp prec emax _ e1 loc_Exact) as [mrs2 e2].
  destruct (shr_m mrs2); simpl; auto.
  match goal with |- context [if ?b then _ else _] => destruct b end; simpl; auto.
Qed.

Lemma binary_round_sign_clear (m : positive) (e : Z) :
  sign_clear (binary_round prec emax false m e).
Proof.
  unfold binary_round. destruct (shl_align _ _ _) as [mz ez].
  apply binary_round_aux_sign_clear.
Qed.

Lemma binary_normalize_sign_clear (n e : Z) :
  0 <= n -> sign_clear (binary_normalize prec emax n e false).
Proof.
  intros Hn. destruct n as [|p|p]; simpl; auto; [|lia].
  apply binary_round_sign_clear.
Qed.

Lemma of_Z_sign_clear (q : Z) : 0 <= q -> sign_clear (Prim2SF (Float64.of_Z q)).
Proof.
  intros Hq. unfold Float64.of_Z.
  pose proof (binary_normalize_sign_clear q 0 Hq) as Hs.
  destruct (binary_normalize prec emax q 0 false) as [s|s| |s m e]; simpl in *.
  - destruct s; vm_compute; exact I.
  - destruct s; vm_compute; exact I.
  - vm_compute; exact I.
  - subst s. rewrite Z_ldexp_spec, of_uint63_spec.
    pose proof (binary_normalize_sign_clear (Uint63.to_Z (Uint63.of_Z (Z.pos m))) 0) as Hm.
    assert (H0 : 0 <= Uint63.to_Z (Uint63.of_Z (Z.pos m)))
      by apply Uint63.to_Z_bounded.
    specialize (Hm H0).
    destruct (binary_normalize prec emax _ 0 false) as [s'|s'| |s' m' e']; simpl in *; auto.
    subst s'. apply binary_round_sign_clear.
Qed.

Lemma to_int64_sign_clear (f : float) (z : Z) :
  sign_clear (Prim2SF f) -> Float64.fits_int64 f = true ->
  Float64.to_int64 f = Ok z -> 0 <= z.
Proof.
  unfold Float64.to_int64, Float64.fits_int64, sign_clear.
  destruct (Prim2SF f) as [s|s| |s m e]; intros Hs Hfit H; try discriminate.
  - inversion H; lia.
  - subst s. cbv zeta in H, Hfit.
    assert (Ha : 0 <= match e with
                      | 0 => Z.pos m
                      | Z.pos k => Z.pos m * Z.pow_pos 2 k
                      | Z.neg k => Z.pos m / Z.pow_pos 2 k
                      end).
    { destruct e as [|k|k]; [lia | |];
        pose proof (Zpow_facts.Zpower_pos_pos 2 k ltac:(lia)).
      - apply Z.mul_nonneg_nonneg; lia.
      - apply Z.div_pos; lia. }
    rewrite Hfit in H. inversion H; subst; exact Ha.
Qed.

Lemma half_even_nonneg (m k : positive) : 0 <= Float64.half_even m k.
Proof.
  unfold Float64.half_even.
  assert (Hd : 0 < Z.pow_pos 2 k) by (apply Zpow_facts.Zpower_pos_pos; lia).
  assert (Hq : 0 <= Z.pos m / Z.pow_pos 2 k) by (apply Z.div_pos; lia).
  destruct (2 * (Z.pos m mod Z.pow_pos 2 k) ?= Z.pow_pos 2 k); try lia.
  destruct (Z.even _); lia.
Qed.

Lemma rint_sign_clear (f : float) :
  (0 <=? f)%float = true -> sign_clear (Prim2SF (Float64.rint f)).
Proof.
  intros Hle. rewrite leb_spec in Hle.
  change (Prim2SF 0%float) with (S754_zero false) in Hle.
  unfold Float64.rint.
  destruct (Prim2SF f) as [s|s| |s m e] eqn:Hf; try (rewrite Hf; exact I).
  assert (s = false) by (destruct s; [discriminate | reflexivity]). subst s.
  destruct e as [|k|k].
  - rewrite Hf. reflexivity.
  - rewrite Hf. reflexivity.
  - apply of_Z_sign_clear. apply half_even_nonneg.
Qed.

(** A float that is not below zero and rounds within the int64 range
    rounds and casts to an integer that is not below zero. *)
Lemma round_cast_nonneg (f : float) (z : Z) :
  (0 <=? f)%float = true -> Float64.fits_int64 (Float64.rint f) = true ->
  Float64.to_int64 (Float64.rint f) = Ok z -> 0 <= z.
Proof.
  intros Hle Hfit. apply to_int64_sign_clear; [|exact Hfit].
  apply rint_sign_clear. exact Hle.
Qed.

(** A float equal to zero rounds and casts to zero. *)
Lemma round_cast_zero (f : float) (z : Z) :
  (f =? 0)%float = true -> Float64.to_int64 (Float64.rint f) = Ok z -> z = 0.
Proof.
  intros He. rewrite eqb_spec in He.
  change (Prim2SF 0%float) with (S754_zero false) in He.
  unfold Float64.rint, Float64.to_int64.
  destruct (Prim2SF f) as [s|s| |s m e] eqn:Hf;
    try discriminate; try (destruct s; discriminate).
  rewrite Hf. intros H; inversion H; reflexivity.
Qed.

(** Zero times a draw is a zero or, for a draw that is no number, NaN. *)
Lemma mul_zero_l (r : float) :
  (0 * r = nan \/ 0 * r = 0 \/ 0 * r = -0)%float.
Proof.
  rewrite <- (SF2Prim_Prim2SF (0 * r)%float), mul_spec.
  change (Prim2SF 0%float) with (S754_zero false).
  destruct (Prim2SF r) as [s|s| |s m e]; simpl; auto; destruct s; simpl; auto.
Qed.

(** Steps 3 and 4 on a zero: the addon is zero and so is the new value. *)
Lemma spec_new_value_zero (r : float) (x : Z) :
  spec_new_value 0 r = Ok x -> x = 0.
Proof.
  unfold spec_new_value. change (Float64.of_Z 0) with 0%float.
  destruct (mul_zero_l r) as [-> | [-> | ->]]; vm_compute; congruence.
Qed.

(** ** Zeros and signs *)

Lemma oldint_of_zero (old : Series) (oldint : list Z) (i : nat) (c : cell) :
  astype_int64 (round0 old) = Ok oldint ->
  series_nth old i = Some c -> cell_is_zero c = true ->
  nth_error oldint i = Some 0.
Proof.
  destruct old as [l|l]; simpl; intros Hoi Hn Hz.
  - inversion Hoi; subst. destruct (nth_error oldint i) as [z|]; [|discriminate].
    inversion Hn; subst. simpl in Hz. apply Z.eqb_eq in Hz. congruence.
  - destruct (nth_error l i) as [f|] eqn:Hf; [|discriminate].
    inversion Hn; subst. simpl in Hz.
    destruct (mapM_nth _ _ _ Hoi) as [_ Hnth].
    destruct (Hnth i (Float64.rint f)) as (z & Hcast & Hz').
    + rewrite nth_error_map, Hf. reflexivity.
    + rewrite (round_cast_zero _ _ Hz Hcast) in Hz'. exact Hz'.
Qed.

Lemma oldint_of_nonneg (old : Series) (oldint : list Z) :
  astype_int64 (round0 old) = Ok oldint ->
  (forall i c, series_nth old i = Some c ->
               cell_nonneg c = true /\ cell_fits_int64 c = true) ->
  Forall (fun z => 0 <= z) oldint.
Proof.
  intros Hoi Hall. apply Forall_forall. intros z Hz.
  apply In_nth_error in Hz as [i Hi].
  destruct old as [l|l]; simpl in *.
  - inversion Hoi; subst. specialize (Hall i (CInt z)). rewrite Hi in Hall.
    destruct (Hall eq_refl) as [Hall' _]. simpl in Hall'. lia.
  - destruct (mapM_nth _ _ _ Hoi) as [Hlen Hnth].
    assert (Hlt : (i < List.length (map Float64.rint l))%nat).
    { rewrite <- Hlen. apply nth_error_Some. congruence. }
    rewrite length_map in Hlt.
    destruct (nth_error l i) as [f|] eqn:Hf; [|apply nth_error_None in Hf; lia].
    destruct (Hnth i (Float64.rint f)) as (z' & Hcast & Hz').
    { rewrite nth_error_map, Hf. reflexivity. }
    assert (z' = z) by congruence. subst z'.
    specialize (Hall i (CFloat f)). rewrite Hf in Hall.
    destruct (Hall eq_refl) as [Hge Hfit]. simpl in Hge, Hfit.
    exact (round_cast_nonneg _ _ Hge Hfit Hcast).
Qed.

(** C4: for every column outside [SKIP_VARS] and every row whose value
    before [randomize_data] is zero, the value after it is exactly zero. *)
Theorem zero_rows_stay_zero (xdf xdf' : DataFrame) (taxyear rnseed : Z)
  (g' : RandomState) (v : string) (old : Series) (i : nat) (c : cell) :
  NoDup (columns xdf) ->
  randomize_data xdf taxyear rnseed = Ok (xdf', g') ->
  v <> "FLPDYR"%string -> mem v SKIP_VARS = false ->
  lookup v (cols xdf) = Some old ->
  series_nth old i = Some c -> cell_is_zero c = true ->
  exists new,
    lookup v (cols xdf') = Some new /\ series_nth new i = Some (CInt 0).
Proof.
  intros Hnd H Hne Hskip Ho Hc Hz.
  assert (Hin : In v (columns xdf)) by (apply lookup_In; eauto).
  destruct (randomize_data_column _ _ _ _ _ _ Hnd H Hin Hne Hskip)
    as (old' & new & Ho' & Hn & oldint & raw & Hoi & (L1 & L2 & Hrows) & ->).
  assert (old' = old) by congruence. subst old'.
  pose proof (oldint_of_zero _ _ _ _ Hoi Hc Hz) as Hi.
  assert (Hlt : (i < List.length oldint)%nat) by (apply nth_error_Some; congruence).
  match type of L1 with
  | List.length ?rf = _ => destruct (nth_error rf i) as [r|] eqn:Hr
  end; [|apply nth_error_None in Hr; lia].
  destruct (Hrows i 0 r Hi Hr) as (x & Hx & Hraw).
  apply spec_new_value_zero in Hx. subst x.
  eexists. split; [exact Hn|].
  destruct (min_lt_0 oldint); simpl.
  - rewrite Hraw. reflexivity.
  - unfold clip_lower_0. rewrite nth_error_map, Hraw. reflexivity.
Qed.

(** C5, as amended: for every column outside [SKIP_VARS] whose values
    before [randomize_data] are all at least zero and, rounded to the
    nearest integer, within the int64 range, every value after it is at
    least zero. *)
Theorem nonnegative_columns_stay_nonnegative (xdf xdf' : DataFrame)
  (taxyear rnseed : Z) (g' : RandomState) (v : string) (old : Series) :
  NoDup (columns xdf) ->
  randomize_data xdf taxyear rnseed = Ok (xdf', g') ->
  v <> "FLPDYR"%string -> mem v SKIP_VARS = false ->
  lookup v (cols xdf) = Some old ->
  (forall i c, series_nth old i = Some c ->
               cell_nonneg c = true /\ cell_fits_int64 c = true) ->
  exists new,
    lookup v (cols xdf') = Some new /\
    forall i c, series_nth new i = Some c -> cell_nonneg c = true.
Proof.
  intros Hnd H Hne Hskip Ho Hall.
  assert (Hin : In v (columns xdf)) by (apply lookup_In; eauto).
  destruct (randomize_data_column _ _ _ _ _ _ Hnd H Hin Hne Hskip)
    as (old' & new & Ho' & Hn & oldint & raw & Hoi & _ & ->).
  assert (old' = old) by congruence. subst old'.
  pose proof (oldint_of_nonneg _ _ Hoi Hall) as F.
  apply min_lt_0_false in F. rewrite F in Hn.
  eexists. split; [exact Hn|].
  intros i c Hc. simpl in Hc. unfold clip_lower_0 in Hc.
  rewrite nth_error_map in Hc.
  destruct (nth_error raw i) as [x|]; [|discriminate].
  inversion Hc; subst. simpl. lia.
Qed.

(** ** The constraints *)

Lemma getitem_Ok (xdf : DataFrame) (name : string) (s : Series) :
  getitem xdf name = Ok s -> lookup name (cols xdf) = Some s.
Proof. unfold getitem. destruct (lookup name (cols xdf)); congruence. Qed.

Lemma lookup_setitem_same (xdf : DataFrame) (name : string) (s : Series) :
  lookup name (cols (setitem xdf name s)) = Some s.
Proof. apply lookup_replace_same. Qed.

Lemma lookup_setitem_other (xdf : DataFrame) (name v : string) (s : Series) :
  v <> name -> lookup v (cols (setitem xdf name s)) = lookup v (cols xdf).
Proof. apply lookup_replace_other. Qed.

(** What [constrain_data] computes outside debug mode, column by column. *)
Lemma constrain_data_columns (xdf xdf' : DataFrame) :
  DEBUG = false ->
  constrain_data xdf = Ok xdf' ->
  exists p1 s1 p2 s2 p3 s3 a4 b4 a5 b5,
    lookup "e00200p" (cols xdf) = Some p1 /\ lookup "e00200s" (cols xdf) = Some s1 /\
    lookup "e00900p" (cols xdf) = Some p2 /\ lookup "e00900s" (cols xdf) = Some s2 /\
    lookup "e02100p" (cols xdf) = Some p3 /\ lookup "e02100s" (cols xdf) = Some s3 /\
    lookup "e00600" (cols xdf) = Some a4 /\ lookup "e00650" (cols xdf) = Some b4 /\
    lookup "e01500" (cols xdf) = Some a5 /\ lookup "e01700" (cols xdf) = Some b5 /\
    xdf' =
      setitem
        (setitem
           (setitem
              (setitem (setitem xdf "e00200" (series_add p1 s1))
                 "e00900" (series_add p2 s2))
              "e02100" (series_add p3 s3))
           "e00600" (series_maximum a4 b4))
        "e01500" (series_maximum a5 b5).
Proof.
  intros Hd H. unfold constrain_data in H. rewrite Hd in H.
  repeat match type of H with
         | bind _ _ = Ok _ =>
             let x := fresh "x" in
             let Hx := fresh "Hx" in
             apply bind_Ok in H as (x & Hx & H); apply getitem_Ok in Hx
         end.
  inversion H; subst; clear H.
  repeat (rewrite lookup_setitem_other in * by discriminate).
  do 10 eexists. repeat (split; [eassumption|]). reflexivity.
Qed.

(** C10: [constrain_data] changes no column but [e00200], [e00900],
    [e02100], [e00600] and [e01500]: every other column, the parts and the
    dominated columns among them, holds what it held, the number of rows
    is the same, and in debug mode the frame is returned as it came. *)
Theorem constrain_data_touches_five_columns (xdf xdf' : DataFrame) :
  constrain_data xdf = Ok xdf' ->
  nrows xdf' = nrows xdf /\
  (forall v,
      ~ In v ["e00200"; "e00900"; "e02100"; "e00600"; "e01500"]%string ->
      lookup v (cols xdf') = lookup v (cols xdf)) /\
  (DEBUG = true -> xdf' = xdf).
Proof.
  intros H. destruct DEBUG eqn:Hd.
  - unfold constrain_data in H. rewrite Hd in H. inversion H; subst. auto.
  - destruct (constrain_data_columns _ _ Hd H)
      as (p1 & s1 & p2 & s2 & p3 & s3 & a4 & b4 & a5 & b5 & _ & _ & _ & _ & _ & _ & _ & _ & _ & _ & ->).
    split; [reflexivity|]. split; [|discriminate].
    intros v Hv. simpl in Hv.
    repeat rewrite lookup_setitem_other by (intros ->; tauto).
    reflexivity.
Qed.

Lemma astype_int64_length (old : Series) (oldint : list Z) :
  astype_int64 (round0 old) = Ok oldint -> List.length oldint = series_len old.
Proof.
  destruct old as [l|l]; simpl; intros H.
  - congruence.
  - apply mapM_nth in H as [H _]. rewrite H. apply length_map.
Qed.

Lemma wf_lookup_length (xdf : DataFrame) (v : string) (s : Series) :
  wf xdf -> lookup v (cols xdf) = Some s -> series_len s = nrows xdf.
Proof.
  intros [_ F] H. rewrite Forall_forall in F.
  assert (Hin : In (v, s) (cols xdf)).
  { clear F. induction (cols xdf) as [|[n s0] cs IH]; simpl in *; [discriminate|].
    destruct (String.eqb_spec n v) as [->|_]; [left; congruence | right; auto]. }
  exact (F _ Hin).
Qed.

(** Every column [randomize_data] randomizes comes out as int64, one value
    per row. *)
Lemma randomized_is_int64 (xdf xdf' : DataFrame) (taxyear rnseed : Z)
  (g' : RandomState) (v : string) (s : Series) :
  wf xdf ->
  randomize_data xdf taxyear rnseed = Ok (xdf', g') ->
  v <> "FLPDYR"%string -> mem v SKIP_VARS = false ->
  lookup v (cols xdf') = Some s ->
  exists l, s = Int64 l /\ List.length l = nrows xdf.
Proof.
  intros Hwf H Hne Hskip Hs.
  destruct (in_dec string_dec v (columns xdf)) as [Hin|Hnin].
  - destruct (randomize_data_column _ _ _ _ _ _ (proj1 Hwf) H Hin Hne Hskip)
      as (old & new & Ho & Hn & oldint & raw & Hoi & (_ & L2 & _) & ->).
    rewrite Hs in Hn. inversion Hn; subst. eexists. split; [reflexivity|].
    rewrite <- (wf_lookup_length _ _ _ Hwf Ho), <- (astype_int64_length _ _ Hoi).
    destruct (min_lt_0 oldint); [exact L2|].
    unfold clip_lower_0. rewrite length_map. exact L2.
  - exfalso. apply randomize_data_unfold in H as (d & _ & _ & H).
    apply randomize_loop_frame in H as [_ Hfr].
    assert (Hnone : lookup v (cols xdf) = None).
    { destruct (lookup v (cols xdf)) eqn:E; [|reflexivity].
      exfalso. apply Hnin. apply lookup_In. eauto. }
    rewrite Hfr in Hs.
    + unfold setitem_scalar in Hs. rewrite lookup_setitem_other in Hs by exact Hne.
      congruence.
    + left. intros Hin. apply lookup_In in Hin as [s' Hs'].
      unfold setitem_scalar in Hs'. rewrite lookup_setitem_other in Hs' by exact Hne.
      congruence.
Qed.

Lemma randomize_data_nrows (xdf xdf' : DataFrame) (taxyear rnseed : Z)
  (g' : RandomState) :
  randomize_data xdf taxyear rnseed = Ok (xdf', g') -> nrows xdf' = nrows xdf.
Proof.
  intros H. apply randomize_data_unfold in H as (d & _ & _ & H).
  apply randomize_loop_frame in H as [H _]. exact H.
Qed.

Lemma wrap64_in_range (z : Z) : Float64.in_int64 z = true -> Float64.wrap64 z = z.
Proof.
  unfold Float64.in_int64, Float64.INT64_MIN, Float64.INT64_MAX, Float64.wrap64.
  intros H. apply andb_prop in H as [H1 H2].
  apply Z.leb_le in H1, H2.
  rewrite Z.mod_small; lia.
Qed.

Lemma nth_error_combine {A B : Type} (a : list A) (b : list B) (i : nat) (x : A) (y : B) :
  nth_error a i = Some x -> nth_error b i = Some y ->
  nth_error (combine a b) i = Some (x, y).
Proof.
  revert b i; induction a as [|a0 a IH]; intros [|b0 b] [|i]; simpl; try discriminate.
  - congruence.
  - apply IH.
Qed.

Lemma sum_identity_intro (xdf : DataFrame) (total partA partB : string) (a b : list Z) :
  List.length a = nrows xdf -> List.length b = nrows xdf ->
  lookup partA (cols xdf) = Some (Int64 a) ->
  lookup partB (cols xdf) = Some (Int64 b) ->
  lookup total (cols xdf) = Some (series_add (Int64 a) (Int64 b)) ->
  sum_identity xdf total partA partB.
Proof.
  intros La Lb Ha Hb Ht. simpl in Ht.
  eexists _, a, b. split; [exact Ht|]. split; [exact Ha|]. split; [exact Hb|].
  split; [rewrite length_map, length_combine; lia|]. split; [exact La|]. split; [exact Lb|].
  intros i x y Hx Hy.
  assert (E : nth_error (map (fun p => Float64.add64 (fst p) (snd p)) (combine a b)) i
              = Some (Float64.add64 x y)).
  { rewrite nth_error_map, (nth_error_combine _ _ _ _ _ Hx Hy). reflexivity. }
  split; [exact E|]. intros Hr. rewrite E. unfold Float64.add64.
  rewrite (wrap64_in_range _ Hr). reflexivity.
Qed.

Lemma dominance_intro (xdf : DataFrame) (column related : string) (a b : list Z) :
  List.length a = nrows xdf -> List.length b = nrows xdf ->
  lookup related (cols xdf) = Some (Int64 b) ->
  lookup column (cols xdf) = Some (series_maximum (Int64 a) (Int64 b)) ->
  dominance xdf column related.
Proof.
  intros La Lb Hb Hc. simpl in Hc.
  eexists _, b. split; [exact Hc|]. split; [exact Hb|].
  split; [rewrite length_map, length_combine; lia|]. split; [exact Lb|].
  intros i x y Hx Hy. rewrite nth_error_map in Hx.
  destruct (nth_error (combine a b) i) as [[x0 y0]|] eqn:E; [|discriminate].
  simpl in Hx. inversion Hx; subst; clear Hx.
  assert (Hy0 : nth_error b i = Some y0).
  { clear -E. revert b i E. induction a as [|a0 a IH]; intros [|b0 b] [|i] E;
      simpl in *; try discriminate; [congruence | eauto]. }
  assert (y0 = y) by congruence. subst. lia.
Qed.

Ltac solve_lookup :=
  repeat rewrite lookup_setitem_other by discriminate;
  first [eassumption | apply lookup_setitem_same].

(** C6: outside debug mode, once [constrain_data] has run on what
    [randomize_data] left, every row has [e00200 = e00200p + e00200s],
    [e00900 = e00900p + e00900s], [e02100 = e02100p + e02100s],
    [e00600 >= e00650] and [e01500 >= e01700], exactly. The repair draws
    nothing: [constrain_data] is a function of the frame alone. *)
Theorem identities_restored (xdf0 xdf xdf' : DataFrame) (taxyear rnseed : Z)
  (g : RandomState) :
  DEBUG = false ->
  wf xdf0 ->
  randomize_data xdf0 taxyear rnseed = Ok (xdf, g) ->
  constrain_data xdf = Ok xdf' ->
  sum_identity xdf' "e00200" "e00200p" "e00200s" /\
  sum_identity xdf' "e00900" "e00900p" "e00900s" /\
  sum_identity xdf' "e02100" "e02100p" "e02100s" /\
  dominance xdf' "e00600" "e00650" /\
  dominance xdf' "e01500" "e01700".
Proof.
  intros Hd Hwf Hr Hc.
  pose proof (randomize_data_nrows _ _ _ _ _ Hr) as Hrows.
  destruct (constrain_data_columns _ _ Hd Hc)
    as (p1 & s1 & p2 & s2 & p3 & s3 & a4 & b4 & a5 & b5 &
        H1 & H2 & H3 & H4 & H5 & H6 & H7 & H8 & H9 & H10 & ->).
  assert (Hint : forall v s,
             mem v SKIP_VARS = false -> v <> "FLPDYR"%string ->
             lookup v (cols xdf) = Some s ->
             exists l, s = Int64 l /\ List.length l = nrows xdf).
  { intros v s Hv Hne Hs. rewrite Hrows.
    exact (randomized_is_int64 _ _ _ _ _ _ _ Hwf Hr Hne Hv Hs). }
  assert (Hskip : forall v,
             In v ["e00200p"; "e00200s"; "e00900p"; "e00900s"; "e02100p"; "e02100s";
                   "e00600"; "e00650"; "e01500"; "e01700"]%string ->
             mem v SKIP_VARS = false /\ v <> "FLPDYR"%string).
  { unfold SKIP_VARS. rewrite Hd. intros v Hv. simpl in Hv.
    repeat (destruct Hv as [<-|Hv]; [split; [reflexivity | discriminate]|]).
    destruct Hv. }
  repeat match goal with
         | H : lookup ?v (cols xdf) = Some ?s |- _ =>
             is_var s;
             let l := fresh "l" in
             let L := fresh "L" in
             destruct (Hint v s (proj1 (Hskip v ltac:(simpl; tauto)))
                         (proj2 (Hskip v ltac:(simpl; tauto))) H) as (l & -> & L)
         end.
  repeat split;
    first [ eapply sum_identity_intro; [ | | solve_lookup | solve_lookup | solve_lookup ]
          | eapply dominance_intro; [ | | solve_lookup | solve_lookup ] ];
    simpl; assumption.
Qed.

(** ** Sampling *)

Lemma drop_nrows (xdf xdf' : DataFrame) (name : string) :
  drop xdf name = Ok xdf' -> nrows xdf' = nrows xdf.
Proof.
  unfold drop. destruct (lookup name (cols xdf)); [|discriminate].
  intros H; inversion H; reflexivity.
Qed.

Lemma randomize_data_valid_seed (xdf xdf' : DataFrame) (taxyear rnseed : Z)
  (g' : RandomState) :
  randomize_data xdf taxyear rnseed = Ok (xdf', g') -> valid_seed rnseed = true.
Proof. intros H. apply randomize_data_unfold in H as (d & _ & Hs & _). exact Hs. Qed.

Lemma py_range_length (n : Z) : List.length (py_range n) = Z.to_nat n.
Proof. unfold py_range. rewrite length_map, length_seq. reflexivity. Qed.

Lemma constrain_data_nrows (xdf xdf' : DataFrame) :
  constrain_data xdf = Ok xdf' -> nrows xdf' = nrows xdf.
Proof.
  intros H. destruct DEBUG eqn:Hd.
  - unfold constrain_data in H. rewrite Hd in H. inversion H; reflexivity.
  - destruct (constrain_data_columns _ _ Hd H)
      as (p1 & s1 & p2 & s2 & p3 & s3 & a4 & b4 & a5 & b5 & _ & _ & _ & _ & _ & _ & _ & _ & _ & _ & ->).
    reflexivity.
Qed.

(** ** Command-line arguments *)

Lemma range_check (lo hi x : Z) :
  (x <? lo) || (x >? hi) = negb ((lo <=? x) && (x <=? hi)).
Proof.
  rewrite Z.gtb_ltb.
  destruct (Z.ltb_spec x lo), (Z.ltb_spec hi x), (Z.leb_spec lo x), (Z.leb_spec x hi);
    simpl; try reflexivity; lia.
Qed.

(** C8: each of [YEAR] in [2013, 2023], [SEED] in [1, 999999999] and [SIZE]
    in [1, 100000] is checked on its own; each one out of range writes its
    own line, which names the argument and the range; if any was out of
    range the usage line follows, the status is 1 and [main] is not run;
    otherwise the run is that of [main]. *)
Theorem arguments_checked (puf : option DataFrame) (YEAR SEED SIZE : Z) :
  let year_ok := (2013 <=? YEAR) && (YEAR <=? 2023) in
  let seed_ok := (1 <=? SEED) && (SEED <=? 999999999) in
  let size_ok := (1 <=? SIZE) && (SIZE <=? 100000) in
  script puf YEAR SEED SIZE =
    if year_ok && seed_ok && size_ok
    then main puf YEAR SEED SIZE
    else
      Done 1
        ((if year_ok then []
          else [("ERROR: YEAR " ++ str YEAR ++ " not in [2013,2023] range" ++ nl)%string]) ++
         (if seed_ok then []
          else [("ERROR: SEED " ++ str SEED ++ " not in [1,999999999] range" ++ nl)%string]) ++
         (if size_ok then []
          else [("ERROR: SIZE " ++ str SIZE ++ " not in [1,100000] range" ++ nl)%string]) ++
         [("USAGE: python csv_in.py --help" ++ nl)%string])
        None.
Proof.
  intros year_ok seed_ok size_ok. unfold script, MAX_YEAR, MAX_SEED, MAX_SIZE.
  rewrite !range_check. fold year_ok seed_ok size_ok.
  destruct year_ok, seed_ok, size_ok; reflexivity.
Qed.

(** ** Configured columns *)

Lemma lookup_filter_same (name : string) (cs : list (string * Series)) :
  lookup name (filter (fun c => negb (String.eqb (fst c) name)) cs) = None.
Proof.
  induction cs as [|[n s0] cs IH]; simpl; [reflexivity|].
  destruct (String.eqb n name) eqn:E; simpl; [exact IH|].
  rewrite E. exact IH.
Qed.

Lemma lookup_filter_Some (name v : string) (cs : list (string * Series)) (s : Series) :
  lookup v (filter (fun c => negb (String.eqb (fst c) name)) cs) = Some s ->
  lookup v cs = Some s.
Proof.
  destruct (String.eqb_spec name v) as [<-|Hne].
  - rewrite lookup_filter_same. discriminate.
  - induction cs as [|[n s0] cs IH]; simpl; [discriminate|].
    destruct (String.eqb_spec n name) as [->|Hn]; simpl.
    + destruct (String.eqb_spec name v); [congruence | exact IH].
    + destruct (String.eqb n v); [auto | exact IH].
Qed.

Lemma drop_loop_inl (vars : list string) :
  forall xdf xdf',
    drop_loop vars xdf = inl xdf' ->
    (forall v, In v vars -> mem v USABLE_READ_VARS = true /\ In v (columns xdf)) /\
    (forall v s, lookup v (cols xdf') = Some s -> lookup v (cols xdf) = Some s).
Proof.
  induction vars as [|var rest IH]; simpl; intros xdf xdf' H.
  - inversion H; subst. split; [tauto | auto].
  - destruct (mem var USABLE_READ_VARS) eqn:Hm; simpl in H; [|discriminate].
    destruct (drop xdf var) as [xdf1|e] eqn:Hdrop; [|discriminate].
    unfold drop in Hdrop. destruct (lookup var (cols xdf)) as [s0|] eqn:Hl; [|discriminate].
    inversion Hdrop; subst xdf1; clear Hdrop.
    destruct (IH _ _ H) as [Hall Hsub]. simpl in *. split.
    + intros v [<-|Hv].
      * split; [exact Hm | apply lookup_In; eauto].
      * destruct (Hall v Hv) as [Hu Hc]. split; [exact Hu|].
        apply lookup_In in Hc as [s Hs]. apply lookup_In.
        exists s. eapply lookup_filter_Some; exact Hs.
    + intros v s Hs. eapply lookup_filter_Some. apply Hsub. exact Hs.
Qed.

Lemma drop_loop_inr (vars : list string) :
  forall xdf o,
    drop_loop vars xdf = inr o ->
    (exists w, In w vars /\ mem w USABLE_READ_VARS = false /\
               o = Done 1 [already_dropped w] None) \/
    (exists w, In w vars /\ o = Uncaught (KeyError w)).
Proof.
  induction vars as [|var rest IH]; simpl; intros xdf o H; [discriminate|].
  destruct (mem var USABLE_READ_VARS) eqn:Hm; simpl in H.
  - destruct (drop xdf var) as [xdf1|e] eqn:Hdrop.
    + destruct (IH _ _ H) as [(w & Hw & Hu & ->)|(w & Hw & ->)]; [left | right]; eauto 6.
    + inversion H; subst. right. exists var. split; [auto|].
      unfold drop in Hdrop. destruct (lookup var (cols xdf)); [discriminate|].
      congruence.
  - inversion H; subst. left. exists var. auto.
Qed.

(** C9, as amended: outside debug mode, when a name of the drop set is
    missing from [Records.USABLE_READ_VARS] or from the table, or a column
    that [constrain_data] reads is missing from the table, the run writes
    no file and ends in error: with return code 1 and the line that names a
    drop variable missing from the registry, or with an exception nobody
    catches. *)
Theorem missing_columns_are_fatal (xdf : DataFrame) (taxyear rnseed ssize : Z)
  (v : string) :
  DEBUG = false ->
  (In v DROP_VARS /\ (mem v USABLE_READ_VARS = false \/ ~ In v (columns xdf))) \/
  (In v ["e00200p"; "e00200s"; "e00900p"; "e00900s"; "e02100p"; "e02100s";
         "e00600"; "e00650"; "e01500"; "e01700"]%string /\
   ~ In v (columns xdf)) ->
  (exists w,
      In w DROP_VARS /\ mem w USABLE_READ_VARS = false /\
      main (Some xdf) taxyear rnseed ssize = Done 1 [already_dropped w] None) \/
  (exists e, main (Some xdf) taxyear rnseed ssize = Uncaught e).
Proof.
  intros Hd Hmiss. unfold main.
  destruct (drop_loop drop_order xdf) as [xdf1|o] eqn:Hdrop.
  - apply drop_loop_inl in Hdrop as [Hall Hsub].
    destruct Hmiss as [[Hv Hbad]|[Hv Hnin]].
    + apply (Permutation_in _ (Permutation_sym drop_order_perm)) in Hv.
      destruct (Hall v Hv) as [Hu Hc]. destruct Hbad; [congruence | tauto].
    + destruct (randomize_data xdf1 taxyear rnseed) as [[xdf2 g]|e] eqn:Hrand;
        [|right; eauto].
      destruct (constrain_data xdf2) as [xdf3|e] eqn:Hcons; [|right; eauto].
      exfalso. apply Hnin.
      assert (Hne : v <> "FLPDYR"%string).
      { simpl in Hv. intros ->.
        repeat (destruct Hv as [Hv|Hv]; [discriminate|]). destruct Hv. }
      assert (Hs2 : exists s, lookup v (cols xdf2) = Some s).
      { destruct (constrain_data_columns _ _ Hd Hcons)
          as (p1 & s1 & p2 & s2 & p3 & s3 & a4 & b4 & a5 & b5 &
              H1 & H2 & H3 & H4 & H5 & H6 & H7 & H8 & H9 & H10 & _).
        simpl in Hv.
        repeat (destruct Hv as [<-|Hv]; [eauto|]). destruct Hv. }
      destruct Hs2 as [s Hs].
      apply randomize_data_unfold in Hrand as (d & _ & _ & Hloop).
      apply randomize_loop_frame in Hloop as [_ Hfr].
      destruct (lookup v (cols xdf1)) as [s1|] eqn:Hl1.
      * apply lookup_In. eauto.
      * exfalso. rewrite Hfr in Hs.
        -- unfold setitem_scalar in Hs.
           rewrite lookup_setitem_other in Hs by exact Hne. congruence.
        -- left. intros Hin. apply lookup_In in Hin as [s' Hs'].
           unfold setitem_scalar in Hs'.
           rewrite lookup_setitem_other in Hs' by exact Hne. congruence.
  - apply drop_loop_inr in Hdrop as [(w & Hw & Hu & ->)|(w & Hw & ->)].
    + left. exists w. split; [|auto].
      exact (Permutation_in _ drop_order_perm Hw).
    + right. eauto.
Qed.

(** ** The CSV file *)

Lemma main_writes (puf : option DataFrame) (taxyear rnseed ssize rcode : Z)
  (stderr : list string) (csv : string * DataFrame) :
  main puf taxyear rnseed ssize = Done rcode stderr (Some csv) ->
  exists xdf0 xdf1 xdf2 g xdf3,
    puf = Some xdf0 /\
    drop_loop drop_order xdf0 = inl xdf1 /\
    randomize_data xdf1 taxyear rnseed = Ok (xdf2, g) /\
    constrain_data xdf2 = Ok xdf3 /\
    sample_and_write xdf3 taxyear rnseed ssize = Done rcode stderr (Some csv).
Proof.
  unfold main. destruct puf as [xdf0|]; [|discriminate].
  destruct (drop_loop drop_order xdf0) as [xdf1|o] eqn:Hdrop.
  - destruct (randomize_data xdf1 taxyear rnseed) as [[xdf2 g]|e] eqn:Hr; [|discriminate].
    destruct (constrain_data xdf2) as [xdf3|e] eqn:Hc; [|discriminate].
    intros H. exists xdf0, xdf1, xdf2, g, xdf3. auto.
  - apply drop_loop_inr in Hdrop as [(w & _ & _ & ->)|(w & _ & ->)]; discriminate.
Qed.

Lemma recid_values (n : nat) :
  map (fun rid => rid + 1) (map Z.of_nat (seq 0 n)) = map Z.of_nat (seq 1 n).
Proof.
  rewrite map_map, <- seq_shift, map_map. apply map_ext. intros a. lia.
Qed.

(** Identifier contiguity: whenever [main] writes a CSV file, its [RECID]
    column is 1, 2, ..., n in row order, n the number of rows written; the
    return code is 0, nothing goes to stderr, and the file is named after
    [taxyear % 100]. *)
Theorem recid_is_one_to_n (puf : option DataFrame) (taxyear rnseed ssize rcode : Z)
  (stderr : list string) (name : string) (out : DataFrame) :
  main puf taxyear rnseed ssize = Done rcode stderr (Some (name, out)) ->
  lookup "RECID" (cols out) = Some (Int64 (map Z.of_nat (seq 1 (nrows out)))) /\
  rcode = 0 /\ stderr = [] /\
  name = ("x" ++ str (taxyear mod 100) ++ ".csv")%string.
Proof.
  intros H. apply main_writes in H as (xdf0 & xdf1 & xdf2 & g & xdf3 & _ & _ & _ & _ & H).
  unfold sample_and_write in H.
  destruct (if DEBUG then _ else _) as [[sample_size xxdf]|e]; [|discriminate].
  unfold setitem_list in H. rewrite length_map, py_range_length in H.
  destruct (Nat.eqb_spec (Z.to_nat sample_size) (nrows xxdf)) as [E|]; [|discriminate].
  inversion H; subst; clear H. simpl.
  rewrite lookup_replace_same. unfold py_range. rewrite recid_values, E.
  auto.
Qed.

(** ** The column filter *)

Lemma lookup_filter_other (name v : string) (cs : list (string * Series)) :
  v <> name ->
  lookup v (filter (fun c => negb (String.eqb (fst c) name)) cs) = lookup v cs.
Proof.
  intros Hne. induction cs as [|[n s0] cs IH]; simpl; [reflexivity|].
  destruct (String.eqb_spec n name) as [->|Hn]; simpl.
  - destruct (String.eqb_spec name v); [congruence | exact IH].
  - destruct (String.eqb n v); [reflexivity | exact IH].
Qed.

(** Section 4.1: when the loop over the drop set runs to its end, the
    columns it names are gone, every other column holds what it held, and
    the number of rows is the same. *)
Theorem drop_loop_removes_only_named (vars : list string) (xdf xdf' : DataFrame) :
  drop_loop vars xdf = inl xdf' ->
  nrows xdf' = nrows xdf /\
  (forall v, In v vars -> lookup v (cols xdf') = None) /\
  (forall v, ~ In v vars -> lookup v (cols xdf') = lookup v (cols xdf)).
Proof.
  revert xdf xdf'. induction vars as [|var rest IH]; simpl; intros xdf xdf' H.
  - inversion H; subst. repeat split; tauto.
  - destruct (mem var USABLE_READ_VARS); simpl in H; [|discriminate].
    destruct (drop xdf var) as [xdf1|e] eqn:Hdrop; [|discriminate].
    destruct (IH _ _ H) as (Hrows & Hgone & Hkept).
    pose proof (drop_nrows _ _ _ Hdrop) as Hr1.
    unfold drop in Hdrop. destruct (lookup var (cols xdf)); [|discriminate].
    inversion Hdrop; subst xdf1; clear Hdrop. simpl in *.
    split; [congruence|]. split.
    + intros v [<-|Hv]; [|auto].
      destruct (in_dec string_dec var rest) as [Hin|Hnin]; [auto|].
      rewrite Hkept by exact Hnin. apply lookup_filter_same.
    + intros v Hv. rewrite Hkept by tauto. apply lookup_filter_other.
      intros ->. tauto.
Qed.

(** ** Debug mode *)

Lemma randomize_loop_all_skipped (nmean nsdev : float) (num : nat) (names : list string)
  (xdf : DataFrame) (g : RandomState) :
  (forall v, In v names -> mem v SKIP_VARS = true) ->
  randomize_loop nmean nsdev num names xdf g = Ok (xdf, g).
Proof.
  induction names as [|n rest IH]; simpl; intros H; [reflexivity|].
  rewrite (H n (or_introl eq_refl)). apply IH. auto.
Qed.

(** Pass-through: in debug mode, on a table whose columns are all usable
    read variables, [FLPDYR] among them, [randomize_data] draws nothing and
    changes nothing but [FLPDYR], and [constrain_data] changes nothing. *)
Theorem debug_mode_passes_values_through (xdf xdf' xdf'' : DataFrame)
  (taxyear rnseed : Z) (g : RandomState) :
  DEBUG = true ->
  (forall v, In v (columns xdf) -> mem v USABLE_READ_VARS = true) ->
  mem "FLPDYR" USABLE_READ_VARS = true ->
  randomize_data xdf taxyear rnseed = Ok (xdf', g) ->
  constrain_data xdf' = Ok xdf'' ->
  xdf' = setitem_scalar xdf "FLPDYR" taxyear /\ g = mt_init rnseed /\ xdf'' = xdf'.
Proof.
  intros Hd Hall Hf Hr Hc.
  apply randomize_data_unfold in Hr as (d & _ & _ & Hloop).
  rewrite randomize_loop_all_skipped in Hloop.
  - inversion Hloop; subst. split; [reflexivity|]. split; [reflexivity|].
    unfold constrain_data in Hc. rewrite Hd in Hc. congruence.
  - intros v Hv. unfold SKIP_VARS. rewrite Hd.
    destruct (columns_setitem xdf "FLPDYR" (Int64 (repeat taxyear (nrows xdf))))
      as [E|[_ E]]; unfold setitem_scalar in Hv; rewrite E in Hv.
    + auto.
    + apply in_app_or in Hv as [Hv|[<-|[]]]; auto.
Qed.

(** ** The shape of the table and the draws of the generator *)

Lemma wf_setitem (xdf : DataFrame) (name : string) (s : Series) :
  wf xdf -> series_len s = nrows xdf -> wf (setitem xdf name s).
Proof.
  intros [Hnd F] Hs. split; [apply NoDup_columns_setitem; exact Hnd|].
  unfold setitem; simpl. clear Hnd.
  induction (cols xdf) as [|[n s0] cs IH]; simpl.
  - constructor; [exact Hs | constructor].
  - inversion F; subst. destruct (String.eqb n name); constructor; auto.
Qed.

Lemma randomized_column_length (nmean nsdev : float) (num : nat) (g : RandomState)
  (old new : Series) :
  randomized_column nmean nsdev num g old new -> series_len new = series_len old.
Proof.
  intros (oldint & raw & Hoi & (_ & L & _) & ->).
  rewrite <- (astype_int64_length _ _ Hoi). simpl.
  destruct (min_lt_0 oldint); [exact L|].
  unfold clip_lower_0. rewrite length_map. exact L.
Qed.

Lemma randomize_loop_shape (nmean nsdev : float) (num : nat) (names : list string) :
  forall xdf g xdf' g',
    randomize_loop nmean nsdev num names xdf g = Ok (xdf', g') ->
    columns xdf' = columns xdf /\
    (wf xdf -> wf xdf') /\
    g' = after_draws nmean nsdev num g
           (List.length (filter (fun n => negb (mem n SKIP_VARS)) names)).
Proof.
  induction names as [|n rest IH]; simpl; intros xdf g xdf' g' H.
  - inversion H; subst. auto.
  - destruct (mem n SKIP_VARS) eqn:Hskip; simpl.
    + exact (IH _ _ _ _ H).
    + apply bind_Ok in H as ([xdf1 g1] & Hvar & H). simpl in H.
      destruct (randomize_var_spec _ _ _ _ _ _ _ _ Hvar) as (old & new & Ho & Hc & -> & ->).
      destruct (IH _ _ _ _ H) as (Hcols & Hwf & Hg).
      split; [|split].
      * rewrite Hcols. unfold columns, setitem; simpl.
        apply columns_replace_present. apply lookup_In. eauto.
      * intros W. apply Hwf. apply wf_setitem; [exact W|].
        rewrite (randomized_column_length _ _ _ _ _ _ Hc).
        exact (wf_lookup_length _ _ _ W Ho).
      * exact Hg.
Qed.

(** [randomize_data] neither adds nor removes a row or a column, but for
    [FLPDYR], which it appends when the table has none; it keeps the
    column order, and a table whose columns have distinct names and one
    length comes out as such a table. *)
Theorem randomize_data_keeps_shape (xdf xdf' : DataFrame) (taxyear rnseed : Z)
  (g' : RandomState) :
  randomize_data xdf taxyear rnseed = Ok (xdf', g') ->
  nrows xdf' = nrows xdf /\
  columns xdf' =
    (if mem "FLPDYR" (columns xdf) then columns xdf
     else columns xdf ++ ["FLPDYR"%string]) /\
  (wf xdf -> wf xdf').
Proof.
  intros H. pose proof (randomize_data_nrows _ _ _ _ _ H) as Hrows.
  apply randomize_data_unfold in H as (d & _ & _ & H).
  apply randomize_loop_shape in H as (Hcols & Hwf & _).
  split; [exact Hrows|]. split.
  - rewrite Hcols. unfold setitem_scalar, columns, setitem; simpl.
    destruct (mem "FLPDYR" (map fst (cols xdf))) eqn:E.
    + apply columns_replace_present. unfold mem in E.
      apply existsb_exists in E as (x & Hx & Ex). apply String.eqb_eq in Ex.
      subst; exact Hx.
    + apply columns_replace_absent. intros Hin.
      assert (mem "FLPDYR" (map fst (cols xdf)) = true); [|congruence].
      apply existsb_exists. exists "FLPDYR"%string. split; [exact Hin | reflexivity].
  - intros W. apply Hwf. apply wf_setitem; [exact W|].
    simpl. apply repeat_length.
Qed.

(** [randomize_data] calls [normal] once for each column outside
    [SKIP_VARS], in column order, and never for a skipped column: the
    generator it leaves is the seeded one after as many calls as the
    result has columns outside [SKIP_VARS]. *)
Theorem randomize_data_draws_once_per_column (xdf xdf' : DataFrame)
  (taxyear rnseed : Z) (g' : RandomState) :
  randomize_data xdf taxyear rnseed = Ok (xdf', g') ->
  g' = after_draws (1.0 + ANNUAL_DRIFT * Float64.of_Z (taxyear - 2009))%float
         NORM_STD_DEV (nrows xdf) (mt_init rnseed)
         (List.length (filter (fun n => negb (mem n SKIP_VARS)) (columns xdf'))).
Proof.
  intros H. apply randomize_data_unfold in H as (d & Hd & _ & H).
  apply of_pyint_Ok in Hd. subst d.
  apply randomize_loop_shape in H as (Hcols & _ & Hg).
  rewrite Hcols. exact Hg.
Qed.

(** ** More on the constraints *)

Lemma mem_columns_lookup (v : string) (xdf : DataFrame) :
  mem v (columns xdf) =
    match lookup v (cols xdf) with Some _ => true | None => false end.
Proof.
  unfold columns, mem. induction (cols xdf) as [|[n s] cs IH]; simpl; [reflexivity|].
  rewrite String.eqb_sym. destruct (String.eqb n v); simpl; [reflexivity | exact IH].
Qed.

(** Outside debug mode [constrain_data] returns a table exactly when the
    table has the ten columns it reads; otherwise it raises [KeyError] for
    the first of them, in reading order, that the table lacks. The columns
    it writes need not be there. *)
Theorem constrain_data_needs_its_ten_columns (xdf : DataFrame) :
  DEBUG = false ->
  match find (fun v => negb (mem v (columns xdf))) CONSTRAINT_READS with
  | Some v => constrain_data xdf = Raise (KeyError v)
  | None => exists xdf', constrain_data xdf = Ok xdf'
  end.
Proof.
  intros Hd. unfold constrain_data, CONSTRAINT_READS, getitem. rewrite Hd.
  cbn [find]. rewrite !mem_columns_lookup.
  repeat (rewrite ?lookup_setitem_other by discriminate;
          match goal with
          | |- context [lookup ?v (cols xdf)] =>
              destruct (lookup v (cols xdf)); cbn [negb bind]; [|reflexivity]
          end).
  eexists. reflexivity.
Qed.

Lemma replace_col_same (name : string) (s : Series) (cs : list (string * Series)) :
  lookup name cs = Some s -> replace_col name s cs = cs.
Proof.
  induction cs as [|[n s0] cs IH]; simpl; [discriminate|].
  destruct (String.eqb_spec n name) as [->|Hn]; intros H.
  - congruence.
  - rewrite IH by exact H. reflexivity.
Qed.

Lemma setitem_same (xdf : DataFrame) (name : string) (s : Series) :
  lookup name (cols xdf) = Some s -> setitem xdf name s = xdf.
Proof.
  intros H. unfold setitem. rewrite (replace_col_same _ _ _ H).
  destruct xdf; reflexivity.
Qed.

Lemma fmaximum_idem (a b : float) :
  Float64.fmaximum (Float64.fmaximum a b) b = Float64.fmaximum a b.
Proof.
  unfold Float64.fmaximum.
  destruct (is_nan a) eqn:Ea; cbv beta iota; [rewrite Ea; reflexivity|].
  destruct (is_nan b) eqn:Eb; cbv beta iota; [rewrite Eb; reflexivity|].
  destruct (b <=? a)%float eqn:Ele; cbv beta iota.
  - rewrite Ea, Ele. reflexivity.
  - rewrite Eb. destruct (b <=? b)%float; reflexivity.
Qed.

Lemma map_combine_idem {A B C : Type} (f : A * B -> C) (g : C * B -> C)
  (x : list A) (y : list B) :
  (forall a b, g (f (a, b), b) = f (a, b)) ->
  map g (combine (map f (combine x y)) y) = map f (combine x y).
Proof.
  intros H. revert y. induction x as [|a x IH]; intros [|b y]; simpl; try reflexivity.
  rewrite H, IH. reflexivity.
Qed.

Lemma series_maximum_idem (a b : Series) :
  series_maximum (series_maximum a b) b = series_maximum a b.
Proof.
  destruct a as [x|x], b as [y|y]; simpl; f_equal;
    apply map_combine_idem; intros p q; simpl;
    first [ apply fmaximum_idem | lia ].
Qed.

(** The repair is stable: [constrain_data] on a table it has returned
    returns that table again, whatever the dtypes of its columns. *)
Theorem constrain_data_idempotent (xdf xdf' : DataFrame) :
  constrain_data xdf = Ok xdf' -> constrain_data xdf' = Ok xdf'.
Proof.
  intros H. destruct DEBUG eqn:Hd.
  - unfold constrain_data in *. rewrite Hd in *. reflexivity.
  - destruct (constrain_data_columns _ _ Hd H)
      as (p1 & s1 & p2 & s2 & p3 & s3 & a4 & b4 & a5 & b5 &
          H1 & H2 & H3 & H4 & H5 & H6 & H7 & H8 & H9 & H10 & E).
    assert (L : forall v s, lookup v (cols xdf) = Some s ->
                ~ In v ["e00200"; "e00900"; "e02100"; "e00600"; "e01500"]%string ->
                lookup v (cols xdf') = Some s).
    { intros v s Hv Hn. subst xdf'. simpl in Hn.
      repeat rewrite lookup_setitem_other by (intros ->; tauto). exact Hv. }
    assert (T1 : lookup "e00200" (cols xdf') = Some (series_add p1 s1))
      by (subst xdf'; solve_lookup).
    assert (T2 : lookup "e00900" (cols xdf') = Some (series_add p2 s2))
      by (subst xdf'; solve_lookup).
    assert (T3 : lookup "e02100" (cols xdf') = Some (series_add p3 s3))
      by (subst xdf'; solve_lookup).
    assert (T4 : lookup "e00600" (cols xdf') = Some (series_maximum a4 b4))
      by (subst xdf'; solve_lookup).
    assert (T5 : lookup "e01500" (cols xdf') = Some (series_maximum a5 b5))
      by (subst xdf'; solve_lookup).
    assert (N : forall v, In v ["e00200p"; "e00200s"; "e00900p"; "e00900s"; "e02100p";
                                "e02100s"; "e00650"; "e01700"]%string ->
                ~ In v ["e00200"; "e00900"; "e02100"; "e00600"; "e01500"]%string).
    { intros v Hv Hn. simpl in Hv, Hn.
      repeat (destruct Hv as [<-|Hv];
              [repeat (destruct Hn as [Hn|Hn]; [discriminate|]); destruct Hn|]).
      destruct Hv. }
    pose proof (L _ _ H1 (N "e00200p"%string ltac:(simpl; tauto))) as K1.
    pose proof (L _ _ H2 (N "e00200s"%string ltac:(simpl; tauto))) as K2.
    pose proof (L _ _ H3 (N "e00900p"%string ltac:(simpl; tauto))) as K3.
    pose proof (L _ _ H4 (N "e00900s"%string ltac:(simpl; tauto))) as K4.
    pose proof (L _ _ H5 (N "e02100p"%string ltac:(simpl; tauto))) as K5.
    pose proof (L _ _ H6 (N "e02100s"%string ltac:(simpl; tauto))) as K6.
    pose proof (L _ _ H8 (N "e00650"%string ltac:(simpl; tauto))) as K8.
    pose proof (L _ _ H10 (N "e01700"%string ltac:(simpl; tauto))) as K10.
    clear H1 H2 H3 H4 H5 H6 H7 H8 H9 H10 L N H.
    generalize dependent xdf'. intros xdf' _ T1 T2 T3 T4 T5 K1 K2 K3 K4 K5 K6 K8 K10.
    unfold constrain_data, getitem. rewrite Hd.
    rewrite K1, K2. cbn [bind]. rewrite (setitem_same _ _ _ T1).
    rewrite K3, K4. cbn [bind]. rewrite (setitem_same _ _ _ T2).
    rewrite K5, K6. cbn [bind]. rewrite (setitem_same _ _ _ T3).
    rewrite T4, K8. cbn [bind]. rewrite series_maximum_idem, (setitem_same _ _ _ T4).
    rewrite T5, K10. cbn [bind]. rewrite series_maximum_idem, (setitem_same _ _ _ T5).
    reflexivity.
Qed.

(** ** More on the column filter *)

Lemma filter_filter {A : Type} (p q : A -> bool) (l : list A) :
  filter p (filter q l) = filter (fun x => q x && p x) l.
Proof.
  induction l as [|a l IH]; simpl; [reflexivity|].
  destruct (q a); simpl; [destruct (p a)|]; rewrite ?IH; reflexivity.
Qed.

(** The table the drop loop leaves when it runs to its end. *)
Lemma drop_loop_result (vars : list string) :
  forall xdf xdf',
    drop_loop vars xdf = inl xdf' ->
    xdf' = mkDataFrame (nrows xdf)
             (filter (fun c => negb (mem (fst c) vars)) (cols xdf)).
Proof.
  induction vars as [|var rest IH]; simpl; intros xdf xdf' H.
  - inversion H; subst. destruct xdf' as [n cs]; simpl. f_equal.
    symmetry. apply forallb_filter_id. apply forallb_forall. reflexivity.
  - destruct (mem var USABLE_READ_VARS); simpl in H; [|discriminate].
    destruct (drop xdf var) as [xdf1|e] eqn:Hdrop; [|discriminate].
    unfold drop in Hdrop. destruct (lookup var (cols xdf)); [|discriminate].
    inversion Hdrop; subst xdf1; clear Hdrop.
    rewrite (IH _ _ H). simpl. f_equal. rewrite filter_filter.
    apply filter_ext. intros [n c]. simpl. unfold mem. simpl.
    destruct (String.eqb n var); reflexivity.
Qed.

(** Over distinct names, as the names of a Python set are, the drop loop
    runs to its end exactly when every name is a usable read variable and
    a column of the table. *)
Theorem drop_loop_succeeds_iff (vars : list string) (xdf : DataFrame) :
  NoDup vars ->
  ((exists xdf', drop_loop vars xdf = inl xdf') <->
   (forall v, In v vars -> mem v USABLE_READ_VARS = true /\ In v (columns xdf))).
Proof.
  intros Hnd. split.
  - intros [xdf' H]. exact (proj1 (drop_loop_inl _ _ _ H)).
  - revert xdf. induction Hnd as [|var rest Hnotin Hnd IH]; intros xdf Hall; simpl.
    + eauto.
    + destruct (Hall var (or_introl eq_refl)) as [Hu Hc]. rewrite Hu. simpl.
      unfold drop. apply lookup_In in Hc as [s Hs]. rewrite Hs.
      apply IH. intros v Hv. destruct (Hall v (or_intror Hv)) as [Hu' Hc'].
      split; [exact Hu'|]. unfold columns; simpl.
      apply lookup_In in Hc' as [s' Hs']. apply lookup_In. exists s'.
      rewrite lookup_filter_other; [exact Hs'|]. intros ->. tauto.
Qed.

(** The order in which the names of the drop set are visited does not
    matter to the table the loop leaves. *)
Theorem drop_loop_order_irrelevant (vars1 vars2 : list string) (xdf a b : DataFrame) :
  Permutation vars1 vars2 ->
  drop_loop vars1 xdf = inl a ->
  drop_loop vars2 xdf = inl b ->
  a = b.
Proof.
  intros P Ha Hb. rewrite (drop_loop_result _ _ _ Ha), (drop_loop_result _ _ _ Hb).
  f_equal. apply filter_ext. intros [n s]. simpl. f_equal.
  unfold mem. destruct (existsb (String.eqb n) vars1) eqn:E1;
    destruct (existsb (String.eqb n) vars2) eqn:E2; try reflexivity; exfalso.
  - apply existsb_exists in E1 as (x & Hx & Ex).
    assert (existsb (String.eqb n) vars2 = true); [|congruence].
    apply existsb_exists. exists x. split; [eapply Permutation_in; eauto | exact Ex].
  - apply existsb_exists in E2 as (x & Hx & Ex).
    assert (existsb (String.eqb n) vars1 = true); [|congruence].
    apply existsb_exists. exists x.
    split; [eapply Permutation_in; [apply Permutation_sym|]; eauto | exact Ex].
Qed.

(** ** The written table *)

Lemma lookup_take_rows (idx : list nat) (v : string) (cs : list (string * Series)) :
  lookup v (map (fun c => (fst c, take_rows idx (snd c))) cs)
  = option_map (take_rows idx) (lookup v cs).
Proof.
  induction cs as [|[n s] cs IH]; simpl; [reflexivity|].
  destruct (String.eqb n v); [reflexivity | exact IH].
Qed.

(** What [sample_and_write] writes: the table with a fresh [RECID], all of
    it in debug mode, the sampled rows otherwise. *)
Lemma sample_and_write_writes (xdf : DataFrame) (taxyear rnseed ssize rcode : Z)
  (stderr : list string) (name : string) (out : DataFrame) :
  sample_and_write xdf taxyear rnseed ssize = Done rcode stderr (Some (name, out)) ->
  exists base vals,
    out = setitem base "RECID" (Int64 vals) /\
    rcode = 0 /\ stderr = [] /\
    if DEBUG then base = xdf
    else
      0 <= ssize <= Z.of_nat (nrows xdf) /\
      base = mkDataFrame
               (List.length (choice rnseed (nrows xdf) (Z.to_nat ssize)))
               (map (fun c => (fst c,
                               take_rows (choice rnseed (nrows xdf) (Z.to_nat ssize))
                                 (snd c)))
                    (cols xdf)).
Proof.
  unfold sample_and_write, sample. destruct DEBUG.
  - unfold setitem_list. destruct (Nat.eqb _ _); [|discriminate].
    intros H; inversion H; subst. eauto 6.
  - destruct (ssize <? 0) eqn:E1; [discriminate|].
    destruct (negb (valid_seed rnseed)); [discriminate|].
    destruct (Z.of_nat (nrows xdf) <? ssize) eqn:E2; [discriminate|].
    cbn [bind]. unfold setitem_list. destruct (Nat.eqb _ _); [|discriminate].
    intros H; inversion H; subst.
    apply Z.ltb_ge in E1, E2. eexists _, _.
    split; [reflexivity|]. split; [reflexivity|]. split; [reflexivity|].
    split; [lia | reflexivity].
Qed.

Lemma snoc_not_nil {A : Type} (l : list A) (x : A) : l ++ [x] <> [].
Proof. destruct l; discriminate. Qed.

Lemma Done_inv (r r' : Z) (e e' : list string) (c c' : option (string * DataFrame)) :
  Done r e c = Done r' e' c' -> r = r' /\ e = e' /\ c = c'.
Proof. intros H; inversion H; auto. Qed.

(** All or nothing: a run of the script that ends with a return code either
    returns 0, writes nothing to stderr and writes the file named after
    [YEAR % 100], or returns 1, writes at least one line to stderr and
    writes no file. *)
Theorem script_writes_all_or_nothing (puf : option DataFrame) (YEAR SEED SIZE rcode : Z)
  (stderr : list string) (csv : option (string * DataFrame)) :
  script puf YEAR SEED SIZE = Done rcode stderr csv ->
  (rcode = 0 /\ stderr = [] /\
   exists out, csv = Some (("x" ++ str (YEAR mod 100) ++ ".csv")%string, out)) \/
  (rcode = 1 /\ stderr <> [] /\ csv = None).
Proof.
  unfold script.
  destruct ((YEAR <? 2013) || (YEAR >? MAX_YEAR));
    destruct ((SEED <? 1) || (SEED >? MAX_SEED));
    destruct ((SIZE <? 1) || (SIZE >? MAX_SIZE)); cbv beta iota zeta;
    try (intros H; apply Done_inv in H as (<- & <- & <-); right;
         split; [reflexivity|]; split; [|reflexivity];
         apply snoc_not_nil).
  intros H. destruct csv as [[name out]|].
  - left. apply main_writes in H as (x0 & x1 & x2 & g & x3 & _ & _ & _ & _ & H).
    unfold sample_and_write in H.
    destruct (if DEBUG then _ else _) as [[n xxdf]|e]; [|discriminate].
    destruct (setitem_list _ _ _); [|discriminate].
    inversion H; subst. eauto.
  - right. unfold main in H. destruct puf as [xdf|].
    + destruct (drop_loop drop_order xdf) as [x1|o] eqn:Hdrop.
      * destruct (randomize_data x1 YEAR SEED) as [[x2 g]|e]; [|discriminate].
        destruct (constrain_data x2) as [x3|e]; [|discriminate].
        unfold sample_and_write in H.
        destruct (if DEBUG then _ else _) as [[n xxdf]|e]; [|discriminate].
        destruct (setitem_list _ _ _); discriminate.
      * apply drop_loop_inr in Hdrop as [(w & _ & _ & ->)|(w & _ & ->)];
          [|discriminate].
        inversion H; subst. repeat split; discriminate.
    + inversion H; subst. repeat split; discriminate.
Qed.


Lemma lookup_filter_mem (vars : list string) (v : string) (cs : list (string * Series)) :
  mem v vars = true ->
  lookup v (filter (fun c => negb (mem (fst c) vars)) cs) = None.
Proof.
  intros Hv. induction cs as [|[n s] cs IH]; simpl; [reflexivity|].
  destruct (mem n vars) eqn:E; simpl; [exact IH|].
  destruct (String.eqb_spec n v) as [->|_]; [congruence | exact IH].
Qed.

Lemma In_mem (v : string) (names : list string) : In v names -> mem v names = true.
Proof.
  intros H. apply existsb_exists. exists v. split; [exact H | apply String.eqb_refl].
Qed.

(** A column that is not there before [randomize_data] and is not [FLPDYR]
    is not there after it. *)
Lemma randomize_data_adds_only_FLPDYR (xdf xdf' : DataFrame) (taxyear rnseed : Z)
  (g' : RandomState) (v : string) :
  randomize_data xdf taxyear rnseed = Ok (xdf', g') ->
  v <> "FLPDYR"%string ->
  lookup v (cols xdf) = None -> lookup v (cols xdf') = None.
Proof.
  intros H Hne Hv.
  apply randomize_data_unfold in H as (d & _ & _ & H).
  apply randomize_loop_frame in H as [_ Hfr].
  assert (E : lookup v (cols (setitem_scalar xdf "FLPDYR" taxyear)) = None).
  { unfold setitem_scalar. rewrite lookup_setitem_other by exact Hne. exact Hv. }
  rewrite Hfr; [exact E|]. left. intros Hin.
  apply lookup_In in Hin as [s Hs]. congruence.
Qed.

(** A column outside the five targets is what it was after [constrain_data]. *)
Lemma constrain_data_frame (xdf xdf' : DataFrame) (v : string) :
  constrain_data xdf = Ok xdf' ->
  ~ In v ["e00200"; "e00900"; "e02100"; "e00600"; "e01500"]%string ->
  lookup v (cols xdf') = lookup v (cols xdf).
Proof.
  intros H Hv. destruct DEBUG eqn:Hd.
  - unfold constrain_data in H. rewrite Hd in H. inversion H; reflexivity.
  - destruct (constrain_data_columns _ _ Hd H)
      as (p1 & s1 & p2 & s2 & p3 & s3 & a4 & b4 & a5 & b5 &
          _ & _ & _ & _ & _ & _ & _ & _ & _ & _ & ->).
    repeat rewrite lookup_setitem_other by (intros ->; apply Hv; simpl; tauto).
    reflexivity.
Qed.

(** No column of [DROP_VARS] reaches the written file. *)
Theorem dropped_columns_not_written (puf : option DataFrame)
  (taxyear rnseed ssize rcode : Z) (stderr : list string) (name : string)
  (out : DataFrame) (v : string) :
  main puf taxyear rnseed ssize = Done rcode stderr (Some (name, out)) ->
  In v DROP_VARS -> lookup v (cols out) = None.
Proof.
  intros H Hv.
  apply main_writes in H as (x0 & x1 & x2 & g & x3 & _ & Hdrop & Hr & Hc & H).
  assert (Hne : ~ In v ["FLPDYR"; "RECID"; "e00200"; "e00900"; "e02100";
                         "e00600"; "e01500"]%string).
  { intros Hin. unfold DROP_VARS in Hv. simpl in Hin.
    destruct DEBUG; simpl in Hv;
      repeat (destruct Hin as [<-|Hin];
              [repeat (destruct Hv as [Hv|Hv]; [discriminate Hv|]); destruct Hv|]);
      destruct Hin. }
  assert (H1 : lookup v (cols x1) = None).
  { rewrite (drop_loop_result _ _ _ Hdrop). simpl. apply lookup_filter_mem.
    apply In_mem. apply Permutation_in with (l := DROP_VARS);
      [apply Permutation_sym; exact drop_order_perm | exact Hv]. }
  assert (H2 : lookup v (cols x2) = None).
  { apply (randomize_data_adds_only_FLPDYR _ _ _ _ _ _ Hr); [|exact H1].
    intros ->. apply Hne. simpl. tauto. }
  assert (H3 : lookup v (cols x3) = None).
  { rewrite (constrain_data_frame _ _ v Hc); [exact H2|].
    intros Hin. apply Hne. simpl in *. tauto. }
  apply sample_and_write_writes in H as (base & vals & -> & _ & _ & H).
  rewrite lookup_setitem_other by (intros ->; apply Hne; simpl; tauto).
  destruct DEBUG.
  - subst base. exact H3.
  - destruct H as [_ ->]. simpl. rewrite lookup_take_rows, H3. reflexivity.
Qed.

Lemma map_nth_repeat {A : Type} (x d : A) (n : nat) (idx : list nat) :
  Forall (fun i => (i < n)%nat) idx ->
  map (fun i => nth i (repeat x n) d) idx = repeat x (List.length idx).
Proof.
  induction 1 as [|i idx Hi _ IH]; simpl; [reflexivity|].
  rewrite IH. f_equal.
  apply (repeat_spec n x). apply nth_In. rewrite repeat_length. exact Hi.
Qed.

(** Every row of the written file carries the tax year in [FLPDYR]
    whenever [FLPDYR] is a skipped variable, which it is outside debug
    mode. *)
Theorem written_table_has_tax_year (puf : option DataFrame)
  (taxyear rnseed ssize rcode : Z) (stderr : list string) (name : string)
  (out : DataFrame) :
  mem "FLPDYR" SKIP_VARS = true ->
  main puf taxyear rnseed ssize = Done rcode stderr (Some (name, out)) ->
  lookup "FLPDYR" (cols out) = Some (Int64 (repeat taxyear (nrows out))).
Proof.
  intros Hskip H.
  apply main_writes in H as (x0 & x1 & x2 & g & x3 & _ & Hdrop & Hr & Hc & H).
  assert (Hrows : nrows x3 = nrows x1).
  { rewrite (constrain_data_nrows _ _ Hc). exact (randomize_data_nrows _ _ _ _ _ Hr). }
  assert (H3 : lookup "FLPDYR" (cols x3) = Some (Int64 (repeat taxyear (nrows x3)))).
  { rewrite (constrain_data_frame _ _ "FLPDYR" Hc)
      by (simpl; intros [E|[E|[E|[E|[E|[]]]]]]; discriminate E).
    rewrite Hrows.
    apply randomize_data_unfold in Hr as (d & _ & _ & Hr).
    apply randomize_loop_frame in Hr as [_ Hfr].
    rewrite Hfr by (right; exact Hskip).
    unfold setitem_scalar. apply lookup_setitem_same. }
  apply sample_and_write_writes in H as (base & vals & -> & _ & _ & H).
  rewrite lookup_setitem_other by discriminate.
  destruct DEBUG.
  - subst base. exact H3.
  - destruct H as [Hb ->]. simpl. rewrite lookup_take_rows, H3. simpl.
    destruct (choice_spec rnseed (nrows x3) (Z.to_nat ssize) ltac:(lia)) as (_ & _ & F).
    rewrite (map_nth_repeat _ _ _ _ F). reflexivity.
Qed.

(** ** The identities in the written file *)

Lemma wf_drop_loop (vars : list string) (xdf xdf' : DataFrame) :
  drop_loop vars xdf = inl xdf' -> wf xdf -> wf xdf'.
Proof.
  intros H [Hnd F]. rewrite (drop_loop_result _ _ _ H). split.
  - unfold columns; simpl. clear F. unfold columns in Hnd.
    induction (cols xdf) as [|[n s] cs IH]; simpl; [constructor|].
    inversion Hnd as [|? ? Hn Hnd']; subst.
    destruct (mem n vars); simpl; [exact (IH Hnd')|].
    constructor; [|exact (IH Hnd')].
    intros Hin. apply Hn. apply in_map_iff in Hin as (c & <- & Hc).
    apply filter_In in Hc as [Hc _]. apply in_map. exact Hc.
  - simpl. apply Forall_forall. intros c Hc. apply filter_In in Hc as [Hc _].
    rewrite Forall_forall in F. exact (F _ Hc).
Qed.

(** The identities [constrain_data] leaves on what [randomize_data]
    produced, outside debug mode. *)
Lemma repaired_identities (xdf0 xdf xdf' : DataFrame) (taxyear rnseed : Z)
  (g : RandomState) :
  DEBUG = false ->
  wf xdf0 ->
  randomize_data xdf0 taxyear rnseed = Ok (xdf, g) ->
  constrain_data xdf = Ok xdf' ->
  sum_identity xdf' "e00200" "e00200p" "e00200s" /\
  sum_identity xdf' "e00900" "e00900p" "e00900s" /\
  sum_identity xdf' "e02100" "e02100p" "e02100s" /\
  dominance xdf' "e00600" "e00650" /\
  dominance xdf' "e01500" "e01700".
Proof.
  intros Hd Hwf Hr Hc.
  pose proof (randomize_data_nrows _ _ _ _ _ Hr) as Hrows.
  destruct (constrain_data_columns _ _ Hd Hc)
    as (p1 & s1 & p2 & s2 & p3 & s3 & a4 & b4 & a5 & b5 &
        H1 & H2 & H3 & H4 & H5 & H6 & H7 & H8 & H9 & H10 & ->).
  assert (Hint : forall v s,
             mem v SKIP_VARS = false -> v <> "FLPDYR"%string ->
             lookup v (cols xdf) = Some s ->
             exists l, s = Int64 l /\ List.length l = nrows xdf).
  { intros v s Hv Hne Hs. rewrite Hrows.
    exact (randomized_is_int64 _ _ _ _ _ _ _ Hwf Hr Hne Hv Hs). }
  assert (Hskip : forall v, In v CONSTRAINT_READS ->
                            mem v SKIP_VARS = false /\ v <> "FLPDYR"%string).
  { unfold SKIP_VARS, CONSTRAINT_READS. rewrite Hd. intros v Hv. simpl in Hv.
    repeat (destruct Hv as [<-|Hv]; [split; [reflexivity | discriminate]|]).
    destruct Hv. }
  repeat match goal with
         | H : lookup ?v (cols xdf) = Some ?s |- _ =>
             is_var s;
             let l := fresh "l" in
             let L := fresh "L" in
             destruct (Hint v s (proj1 (Hskip v ltac:(simpl; tauto)))
                         (proj2 (Hskip v ltac:(simpl; tauto))) H) as (l & -> & L)
         end.
  repeat split;
    first [ eapply sum_identity_intro; [ | | solve_lookup | solve_lookup | solve_lookup ]
          | eapply dominance_intro; [ | | solve_lookup | solve_lookup ] ];
    simpl; assumption.
Qed.

Lemma nth_error_take_rows (idx : list nat) (l : list Z) (j : nat) (x : Z) :
  Forall (fun i => (i < List.length l)%nat) idx ->
  nth_error (map (fun i => nth i l 0) idx) j = Some x ->
  exists i, nth_error idx j = Some i /\ nth_error l i = Some x.
Proof.
  intros F H. rewrite nth_error_map in H.
  destruct (nth_error idx j) as [i|] eqn:E; [|discriminate].
  simpl in H. inversion H; subst; clear H. exists i. split; [reflexivity|].
  apply nth_error_nth'. rewrite Forall_forall in F. apply F.
  eapply nth_error_In; exact E.
Qed.

Lemma take_rows_nth_error (idx : list nat) (l : list Z) (j i : nat) (x : Z) :
  nth_error idx j = Some i -> nth_error l i = Some x ->
  nth_error (map (fun i => nth i l 0) idx) j = Some x.
Proof.
  intros Hj Hi. rewrite nth_error_map, Hj. simpl. f_equal.
  apply nth_error_nth. exact Hi.
Qed.

(** Taking rows of a table and numbering them anew keeps a sum identity
    and a dominance pair: both are properties of single rows. *)
Lemma sum_identity_rows (xdf : DataFrame) (idx : list nat) (ids : Series)
  (total partA partB : string) :
  Forall (fun i => (i < nrows xdf)%nat) idx ->
  total <> "RECID"%string -> partA <> "RECID"%string -> partB <> "RECID"%string ->
  sum_identity xdf total partA partB ->
  sum_identity
    (setitem (mkDataFrame (List.length idx)
                (map (fun c => (fst c, take_rows idx (snd c))) (cols xdf)))
       "RECID" ids)
    total partA partB.
Proof.
  intros F Nt Na Nb (t & a & b & Ht & Ha & Hb & Lt & La & Lb & Hrow).
  exists (map (fun i => nth i t 0) idx), (map (fun i => nth i a 0) idx),
         (map (fun i => nth i b 0) idx).
  repeat rewrite lookup_setitem_other by assumption. simpl.
  repeat rewrite lookup_take_rows. rewrite Ht, Ha, Hb. simpl.
  repeat rewrite length_map.
  do 6 (split; [reflexivity|]).
  intros j x y Hx Hy.
  apply nth_error_take_rows in Hx as (i & Hj & Hx); [|rewrite La; exact F].
  apply nth_error_take_rows in Hy as (i' & Hj' & Hy); [|rewrite Lb; exact F].
  assert (i' = i) by congruence. subst i'.
  destruct (Hrow i x y Hx Hy) as [R1 R2]. split.
  - exact (take_rows_nth_error _ _ _ _ _ Hj R1).
  - intros Hfit. exact (take_rows_nth_error _ _ _ _ _ Hj (R2 Hfit)).
Qed.

Lemma dominance_rows (xdf : DataFrame) (idx : list nat) (ids : Series)
  (column related : string) :
  Forall (fun i => (i < nrows xdf)%nat) idx ->
  column <> "RECID"%string -> related <> "RECID"%string ->
  dominance xdf column related ->
  dominance
    (setitem (mkDataFrame (List.length idx)
                (map (fun c => (fst c, take_rows idx (snd c))) (cols xdf)))
       "RECID" ids)
    column related.
Proof.
  intros F Nc Nr (c & r & Hc & Hr & Lc & Lr & Hrow).
  exists (map (fun i => nth i c 0) idx), (map (fun i => nth i r 0) idx).
  repeat rewrite lookup_setitem_other by assumption. simpl.
  repeat rewrite lookup_take_rows. rewrite Hc, Hr. simpl.
  repeat rewrite length_map.
  do 4 (split; [reflexivity|]).
  intros j x y Hx Hy.
  apply nth_error_take_rows in Hx as (i & Hj & Hx); [|rewrite Lc; exact F].
  apply nth_error_take_rows in Hy as (i' & Hj' & Hy); [|rewrite Lr; exact F].
  assert (i' = i) by congruence. subst i'.
  exact (Hrow i x y Hx Hy).
Qed.

(** Outside debug mode the file [main] writes from a well-formed [puf.csv]
    satisfies the three sum identities and the two dominance pairs in every
    row: sampling and the new [RECID] come after the repair and keep them. *)
Theorem written_table_keeps_identities (xdf : DataFrame)
  (taxyear rnseed ssize rcode : Z) (stderr : list string) (name : string)
  (out : DataFrame) :
  DEBUG = false ->
  wf xdf ->
  main (Some xdf) taxyear rnseed ssize = Done rcode stderr (Some (name, out)) ->
  sum_identity out "e00200" "e00200p" "e00200s" /\
  sum_identity out "e00900" "e00900p" "e00900s" /\
  sum_identity out "e02100" "e02100p" "e02100s" /\
  dominance out "e00600" "e00650" /\
  dominance out "e01500" "e01700".
Proof.
  intros Hd Hwf H.
  apply main_writes in H as (x0 & x1 & x2 & g & x3 & E & Hdrop & Hr & Hc & H).
  inversion E; subst x0; clear E.
  pose proof (wf_drop_loop _ _ _ Hdrop Hwf) as Hwf1.
  destruct (repaired_identities _ _ _ _ _ _ Hd Hwf1 Hr Hc) as (I1 & I2 & I3 & I4 & I5).
  apply sample_and_write_writes in H as (base & vals & -> & _ & _ & H).
  rewrite Hd in H. destruct H as [Hb ->].
  destruct (choice_spec rnseed (nrows x3) (Z.to_nat ssize) ltac:(lia)) as (_ & _ & F).
  repeat split;
    first [ apply sum_identity_rows | apply dominance_rows ];
    first [ assumption | discriminate ].
Qed.

(** ** What can go wrong *)

Lemma to_int64_Raise (f : float) (e : exn) :
  Float64.to_int64 f = Raise e -> e = IntCastingNaNError.
Proof.
  unfold Float64.to_int64. destruct (Prim2SF f) as [s|s| |s m ex]; try discriminate.
  - intros H; inversion H; auto.
  - intros H; inversion H; auto.
  - cbv zeta. destruct (Float64.in_int64 _); discriminate.
Qed.

Lemma mapM_Raise {A B : Type} (f : A -> result B) (P : exn -> Prop) :
  (forall a e, f a = Raise e -> P e) ->
  forall l e, mapM f l = Raise e -> P e.
Proof.
  intros Hf. induction l as [|a l IH]; simpl; intros e H; [discriminate|].
  destruct (f a) as [b|e0] eqn:E; simpl in H.
  - destruct (mapM f l) as [bs|e1]; simpl in H; [discriminate|].
    inversion H; subst. apply IH. reflexivity.
  - inversion H; subst. exact (Hf _ _ E).
Qed.

Lemma astype_int64_Raise (s : Series) (e : exn) :
  astype_int64 s = Raise e -> e = IntCastingNaNError.
Proof.
  destruct s as [v|v]; simpl; [discriminate|].
  exact (mapM_Raise _ (fun e => e = IntCastingNaNError)
           to_int64_Raise v e).
Qed.

Lemma zipM_total {A B C : Type} (f : A -> B -> C) (l : list A) :
  forall r, List.length r = List.length l -> exists cs, zipM f l r = Ok cs.
Proof.
  induction l as [|a l IH]; intros [|b r] H; simpl in *; try discriminate.
  - eauto.
  - destruct (IH r ltac:(congruence)) as [cs ->]. simpl. eauto.
Qed.

(** With one draw per row, the randomization of a column that is there can
    only fail in a cast to int64, on a NaN or an infinity. *)
Lemma randomize_var_Raise (nmean nsdev : float) (num : nat) (xdf : DataFrame)
  (g : RandomState) (v : string) (old : Series) (e : exn) :
  lookup v (cols xdf) = Some old -> series_len old = num ->
  List.length (fst (normal g nmean nsdev num)) = num ->
  randomize_var nmean nsdev num xdf g v = Raise e ->
  e = IntCastingNaNError.
Proof.
  intros Ho Hlen Hn. unfold randomize_var, getitem. rewrite Ho. cbn [bind].
  destruct (astype_int64 (round0 old)) as [oldint|e0] eqn:Hoi; cbn [bind].
  - pose proof (astype_int64_length _ _ Hoi) as Loi.
    destruct (normal g nmean nsdev num) as [rfactor g'] eqn:En. simpl in Hn.
    destruct (zipM_total (fun z r => (Float64.of_Z z * r)%float) oldint rfactor
                ltac:(congruence)) as [addon Hadd].
    rewrite Hadd. cbn [bind].
    destruct (zipM_nth _ _ _ _ Hadd) as (_ & La & _).
    destruct (zipM_total (fun z a => (Float64.of_Z z + a)%float) oldint
                (map Float64.rint addon) ltac:(rewrite length_map; exact La))
      as [rawf Hrawf].
    rewrite Hrawf. cbn [bind].
    destruct (mapM Float64.to_int64 rawf) as [raw|e1] eqn:Hraw; cbn [bind];
      [discriminate|].
    intros H; inversion H; subst.
    exact (mapM_Raise _ (fun e => e = IntCastingNaNError)
             to_int64_Raise _ _ Hraw).
  - intros H; inversion H; subst. destruct old as [l|l]; simpl in Hoi; [discriminate|].
    exact (mapM_Raise _ (fun e => e = IntCastingNaNError)
             to_int64_Raise _ _ Hoi).
Qed.

Lemma randomize_loop_Raise (nmean nsdev : float) (num : nat) (names : list string) :
  (forall g, List.length (fst (normal g nmean nsdev num)) = num) ->
  forall xdf g e,
    wf xdf -> nrows xdf = num ->
    (forall v, In v names -> In v (columns xdf)) ->
    randomize_loop nmean nsdev num names xdf g = Raise e ->
    e = IntCastingNaNError.
Proof.
  intros Hn. induction names as [|n rest IH]; simpl; intros xdf g e W Hrows Hin H;
    [discriminate|].
  destruct (mem n SKIP_VARS).
  - apply (IH xdf g e W Hrows); [|exact H]. auto.
  - destruct (proj1 (lookup_In n (cols xdf)) (Hin n (or_introl eq_refl))) as [old Ho].
    pose proof (wf_lookup_length _ _ _ W Ho) as Lo. rewrite Hrows in Lo.
    destruct (randomize_var nmean nsdev num xdf g n) as [[xdf1 g1]|e0] eqn:Hvar;
      cbn [bind fst snd] in H.
    + destruct (randomize_var_spec _ _ _ _ _ _ _ _ Hvar)
        as (old' & new & Ho' & Hc & -> & ->).
      apply IH in H; [exact H | | exact Hrows |].
      * apply wf_setitem; [exact W|].
        rewrite (randomized_column_length _ _ _ _ _ _ Hc).
        exact (wf_lookup_length _ _ _ W Ho').
      * intros v Hv. unfold columns, setitem; simpl.
        rewrite columns_replace_present by (apply lookup_In; eauto).
        apply Hin. auto.
    + inversion H; subst.
      exact (randomize_var_Raise _ _ _ _ _ _ _ _ Ho Lo (Hn g) Hvar).
Qed.

Lemma wf_setitem_scalar (xdf : DataFrame) (name : string) (z : Z) :
  wf xdf -> wf (setitem_scalar xdf name z).
Proof.
  intros W. apply wf_setitem; [exact W|]. simpl. apply repeat_length.
Qed.

(** The failures of [randomize_data] on a table as [pd.read_csv] builds it,
    with a generator that returns one draw per row: [OverflowError] for a
    tax year no float holds, [ValueError] for a seed outside
    [0, 2**32 - 1], or [IntCastingNaNError] for a NaN or an infinity in a
    cast to int64; never a [KeyError] and never operands of different
    lengths. *)
Theorem randomize_data_raises_only (xdf : DataFrame) (taxyear rnseed : Z) (e : exn) :
  wf xdf ->
  (forall g nmean nsdev,
      List.length (fst (normal g nmean nsdev (nrows xdf))) = nrows xdf) ->
  randomize_data xdf taxyear rnseed = Raise e ->
  (e = OverflowError /\ is_infinity (Float64.of_Z (taxyear - 2009)) = true) \/
  (e = ValueError "Seed must be between 0 and 2**32 - 1" /\
   valid_seed rnseed = false) \/
  e = IntCastingNaNError.
Proof.
  intros W Hn. unfold randomize_data, Float64.of_pyint, np_random_seed.
  destruct (is_infinity (Float64.of_Z (taxyear - 2009))) eqn:Ei; cbn [bind].
  { intros H; inversion H; auto. }
  destruct (valid_seed rnseed) eqn:Es; cbn [bind].
  2: { intros H; inversion H; auto. }
  intros H. right; right.
  apply randomize_loop_Raise in H; [exact H | | | reflexivity | auto].
  - intros g. apply Hn.
  - apply wf_setitem_scalar. exact W.
Qed.

Lemma NoDup_DROP_VARS : NoDup DROP_VARS.
Proof.
  unfold DROP_VARS. destruct DEBUG; repeat constructor; simpl; intuition discriminate.
Qed.

Lemma lookup_filter_not_mem (vars : list string) (v : string)
  (cs : list (string * Series)) :
  mem v vars = false ->
  lookup v (filter (fun c => negb (mem (fst c) vars)) cs) = lookup v cs.
Proof.
  intros Hv. induction cs as [|[n s] cs IH]; simpl; [reflexivity|].
  destruct (mem n vars) eqn:E; simpl.
  - destruct (String.eqb_spec n v) as [->|_]; [congruence | exact IH].
  - destruct (String.eqb n v); [reflexivity | exact IH].
Qed.

(** An exception of the loop over the drop set is the [KeyError] of a name
    that the table does not have. *)
Lemma drop_loop_KeyError (vars : list string) :
  NoDup vars ->
  forall xdf e,
    drop_loop vars xdf = inr (Uncaught e) ->
    exists w, e = KeyError w /\ In w vars /\ lookup w (cols xdf) = None.
Proof.
  induction 1 as [|var rest Hnin Hnd IH]; simpl; intros xdf e H; [discriminate|].
  destruct (mem var USABLE_READ_VARS); simpl in H; [|discriminate].
  unfold drop in H. destruct (lookup var (cols xdf)) as [s|] eqn:Hl.
  - apply IH in H as (w & -> & Hw & Hnone). exists w.
    split; [reflexivity|]. split; [auto|].
    simpl in Hnone. rewrite lookup_filter_other in Hnone; [exact Hnone|].
    intros ->. exact (Hnin Hw).
  - inversion H; subst. exists var. auto.
Qed.

(** [constrain_data] fails only outside debug mode, with the [KeyError] of
    a column it reads and the table does not have. *)
Lemma constrain_data_Raise (xdf : DataFrame) (e : exn) :
  constrain_data xdf = Raise e ->
  DEBUG = false /\
  exists w, e = KeyError w /\ In w CONSTRAINT_READS /\ lookup w (cols xdf) = None.
Proof.
  unfold constrain_data, getitem, CONSTRAINT_READS.
  destruct DEBUG; [discriminate|].
  repeat (rewrite ?lookup_setitem_other by discriminate;
          match goal with
          | |- context [lookup ?v (cols xdf)] =>
              let E := fresh "E" in
              destruct (lookup v (cols xdf)) eqn:E; cbn [bind];
              [|intros H; inversion H; split; [reflexivity|];
                eexists; split; [reflexivity|]; split; [simpl; tauto | exact E]]
          end).
  discriminate.
Qed.

(** A column absent after [randomize_data] was absent before it. *)
Lemma randomize_data_keeps_columns (xdf xdf' : DataFrame) (taxyear rnseed : Z)
  (g' : RandomState) (v : string) :
  randomize_data xdf taxyear rnseed = Ok (xdf', g') ->
  lookup v (cols xdf') = None -> lookup v (cols xdf) = None.
Proof.
  intros H Hv. apply randomize_data_unfold in H as (d & _ & _ & H).
  apply randomize_loop_shape in H as (Hcols & _ & _).
  destruct (lookup v (cols xdf)) as [s|] eqn:E; [|reflexivity].
  assert (Hin : In v (columns xdf')).
  { rewrite Hcols. unfold setitem_scalar.
    assert (Hin : In v (columns xdf)) by (apply lookup_In; eauto).
    destruct (columns_setitem xdf "FLPDYR" (Int64 (repeat taxyear (nrows xdf))))
      as [->|[_ ->]]; [exact Hin | apply in_or_app; left; exact Hin]. }
  apply lookup_In in Hin as [s' Hs']. congruence.
Qed.

Lemma of_pyint_tax_years (YEAR : Z) :
  2013 <= YEAR <= MAX_YEAR ->
  Float64.of_pyint (YEAR - 2009) = Ok (Float64.of_Z (YEAR - 2009)).
Proof.
  unfold MAX_YEAR. intros H.
  assert (E : In (YEAR - 2009) [4; 5; 6; 7; 8; 9; 10; 11; 12; 13; 14])
    by (simpl; lia).
  simpl in E.
  repeat (destruct E as [<-|E]; [reflexivity|]). destruct E.
Qed.

Lemma script_seed_valid (SEED : Z) : 1 <= SEED <= MAX_SEED -> valid_seed SEED = true.
Proof.
  unfold MAX_SEED, valid_seed. intros H.
  apply andb_true_intro. split; [apply Z.leb_le | apply Z.ltb_lt]; [lia|].
  change (2 ^ 32) with 4294967296. lia.
Qed.

Lemma range_accepted (lo hi x : Z) :
  (x <? lo) || (x >? hi) = false -> lo <= x <= hi.
Proof.
  intros H. apply orb_false_iff in H as [H1 H2].
  apply Z.ltb_ge in H1. rewrite Z.gtb_ltb in H2. apply Z.ltb_ge in H2. lia.
Qed.

(** The exceptions that end a run of the script on a [puf.csv] that was
    read, with a generator that returns one draw per row: the [KeyError] of
    a column that [puf.csv] lacks and the script drops or, outside debug
    mode, reads in the repair; the [IntCastingNaNError] of a NaN or an
    infinity in a cast to int64; outside debug mode, the [ValueError] of a
    sample larger than the table. The arguments the
    script accepts rule out the seed and overflow errors of
    [randomize_data] and a negative sample size, and the new [RECID] always
    has the length of the table it is stored in. *)
Theorem script_uncaught_exceptions (puf : DataFrame) (YEAR SEED SIZE : Z) (e : exn) :
  wf puf ->
  (forall g nmean nsdev,
      List.length (fst (normal g nmean nsdev (nrows puf))) = nrows puf) ->
  script (Some puf) YEAR SEED SIZE = Uncaught e ->
  (exists w, e = KeyError w /\ lookup w (cols puf) = None /\
             (In w DROP_VARS \/ (DEBUG = false /\ In w CONSTRAINT_READS))) \/
  e = IntCastingNaNError \/
  (DEBUG = false /\ Z.of_nat (nrows puf) < SIZE /\
   e = ValueError "Cannot take a larger sample than population when 'replace=False'").
Proof.
  intros W Hn. unfold script.
  destruct ((YEAR <? 2013) || (YEAR >? MAX_YEAR)) eqn:E1;
    destruct ((SEED <? 1) || (SEED >? MAX_SEED)) eqn:E2;
    destruct ((SIZE <? 1) || (SIZE >? MAX_SIZE)) eqn:E3; cbv beta iota zeta;
    try discriminate.
  apply range_accepted in E1, E2, E3.
  unfold main.
  destruct (drop_loop drop_order puf) as [x1|o] eqn:Hdrop.
  2: { intros ->.
       apply drop_loop_KeyError in Hdrop as (w & -> & Hw & Hnone).
       - left. exists w. split; [reflexivity|]. split; [exact Hnone|]. left.
         exact (Permutation_in _ drop_order_perm Hw).
       - apply (Permutation_NoDup (Permutation_sym drop_order_perm)).
         exact NoDup_DROP_VARS. }
  pose proof (drop_loop_result _ _ _ Hdrop) as Hx1.
  assert (R1 : nrows x1 = nrows puf) by (rewrite Hx1; reflexivity).
  pose proof (wf_drop_loop _ _ _ Hdrop W) as W1.
  destruct (randomize_data x1 YEAR SEED) as [[x2 g]|e0] eqn:Hr.
  2: { intros H; inversion H; subst e0; clear H. right.
       unfold randomize_data, np_random_seed in Hr.
       rewrite (of_pyint_tax_years _ E1), (script_seed_valid _ E2) in Hr.
       cbn [bind] in Hr.
       apply randomize_loop_Raise in Hr; [tauto | | | reflexivity | auto].
       - intros g. unfold setitem_scalar, setitem. cbn [nrows]. rewrite R1. apply Hn.
       - apply wf_setitem_scalar. exact W1. }
  destruct (constrain_data x2) as [x3|e0] eqn:Hc.
  2: { intros H; inversion H; subst e0; clear H. left.
       apply constrain_data_Raise in Hc as (Hd & w & -> & Hw & Hnone).
       exists w. split; [reflexivity|]. split; [|right; auto].
       apply (randomize_data_keeps_columns _ _ _ _ _ _ Hr) in Hnone.
       rewrite Hx1 in Hnone. simpl in Hnone.
       rewrite lookup_filter_not_mem in Hnone; [exact Hnone|].
       destruct (mem w drop_order) eqn:Em; [|reflexivity].
       apply existsb_exists in Em as (x & Hx & Ex). apply String.eqb_eq in Ex. subst x.
       apply (Permutation_in _ drop_order_perm) in Hx.
       unfold DROP_VARS in Hx. rewrite Hd in Hx. unfold CONSTRAINT_READS in Hw.
       simpl in Hw, Hx.
       repeat (destruct Hw as [<-|Hw];
               [repeat (destruct Hx as [Hx|Hx]; [discriminate Hx|]); destruct Hx|]).
       destruct Hw. }
  assert (R3 : nrows x3 = nrows puf).
  { rewrite (constrain_data_nrows _ _ Hc), (randomize_data_nrows _ _ _ _ _ Hr).
    exact R1. }
  unfold sample_and_write, sample, setitem_list. destruct DEBUG eqn:Hd.
  - rewrite length_map, py_range_length, Nat2Z.id, Nat.eqb_refl. discriminate.
  - replace (SIZE <? 0) with false by (symmetry; apply Z.ltb_ge; lia).
    rewrite (script_seed_valid _ E2). cbn [negb].
    destruct (Z.of_nat (nrows x3) <? SIZE) eqn:E4; cbn [bind].
    + intros H; inversion H; subst. right; right.
      apply Z.ltb_lt in E4. rewrite R3 in E4. auto.
    + apply Z.ltb_ge in E4.
      destruct (choice_spec SEED (nrows x3) (Z.to_nat SIZE) ltac:(lia)) as (L & _).
      cbn [nrows]. rewrite length_map, py_range_length, L, Nat.eqb_refl. discriminate.
Qed.


(** ** The sample, row by row *)

Lemma series_add_length (a b : Series) (n : nat) :
  series_len a = n -> series_len b = n -> series_len (series_add a b) = n.
Proof.
  destruct a, b; simpl; intros Ha Hb; rewrite length_map, length_combine; lia.
Qed.

Lemma series_maximum_length (a b : Series) (n : nat) :
  series_len a = n -> series_len b = n -> series_len (series_maximum a b) = n.
Proof.
  destruct a, b; simpl; intros Ha Hb; rewrite length_map, length_combine; lia.
Qed.

Lemma wf_constrain_data (xdf xdf' : DataFrame) :
  constrain_data xdf = Ok xdf' -> wf xdf -> wf xdf'.
Proof.
  intros H W. destruct DEBUG eqn:Hd.
  - unfold constrain_data in H. rewrite Hd in H. inversion H; subst; exact W.
  - destruct (constrain_data_columns _ _ Hd H)
      as (p1 & s1 & p2 & s2 & p3 & s3 & a4 & b4 & a5 & b5 &
          H1 & H2 & H3 & H4 & H5 & H6 & H7 & H8 & H9 & H10 & ->).
    repeat (apply wf_setitem;
            [|cbn [nrows setitem];
              first [apply series_add_length | apply series_maximum_length];
              eapply wf_lookup_length; eassumption]).
    exact W.
Qed.

Lemma wf_randomize_data (xdf xdf' : DataFrame) (taxyear rnseed : Z)
  (g' : RandomState) :
  randomize_data xdf taxyear rnseed = Ok (xdf', g') -> wf xdf -> wf xdf'.
Proof.
  intros H W. apply randomize_data_unfold in H as (d & _ & _ & H).
  apply randomize_loop_shape in H as (_ & Hwf & _).
  apply Hwf. apply wf_setitem_scalar. exact W.
Qed.

Lemma series_len_take_rows (idx : list nat) (s : Series) :
  series_len (take_rows idx s) = List.length idx.
Proof. destruct s; simpl; apply length_map. Qed.

(** Row [j] of the rows taken at [idx] is row [idx[j]] of the column. *)
Lemma series_nth_take_rows (idx : list nat) (s : Series) (j i : nat) :
  nth_error idx j = Some i -> (i < series_len s)%nat ->
  series_nth (take_rows idx s) j = series_nth s i.
Proof.
  destruct s as [l|l]; simpl; intros Hj Hi; rewrite nth_error_map, Hj; simpl.
  - rewrite (nth_error_nth' l 0 Hi). reflexivity.
  - rewrite (nth_error_nth' l PrimFloat.zero Hi). reflexivity.
Qed.

(** C7: outside debug mode, on a table as [pd.read_csv] builds it and when
    the stages before sampling succeed, a requested [ssize] of at most the
    number of rows gives a CSV table of exactly [ssize] rows: every column
    has [ssize] cells, and row [j] of the file holds, in every column but
    [RECID], the cell of row [idx[j]] of the repaired table, where [idx]
    are the [ssize] distinct positions NumPy's [choice] returns for the
    seed (no row is taken twice); the file has the columns of the repaired
    table. A larger [ssize] ends the run with a [ValueError] and no
    table. *)
Theorem sample_size_exact (xdf0 xdf1 xdf2 xdf3 : DataFrame) (g : RandomState)
  (taxyear rnseed ssize : Z) :
  DEBUG = false ->
  wf xdf0 ->
  drop_loop drop_order xdf0 = inl xdf1 ->
  randomize_data xdf1 taxyear rnseed = Ok (xdf2, g) ->
  constrain_data xdf2 = Ok xdf3 ->
  (0 <= ssize <= Z.of_nat (nrows xdf1) ->
   exists name out idx,
     main (Some xdf0) taxyear rnseed ssize = Done 0 [] (Some (name, out)) /\
     idx = choice rnseed (nrows xdf1) (Z.to_nat ssize) /\
     Z.of_nat (nrows out) = ssize /\
     List.length idx = nrows out /\
     NoDup idx /\
     Forall (fun i => (i < nrows xdf1)%nat) idx /\
     forall v, v <> "RECID"%string ->
       match lookup v (cols xdf3) with
       | Some s =>
           exists s',
             lookup v (cols out) = Some s' /\
             series_len s' = nrows out /\
             forall j i, nth_error idx j = Some i ->
                         series_nth s' j = series_nth s i
       | None => lookup v (cols out) = None
       end) /\
  (Z.of_nat (nrows xdf1) < ssize ->
   exists msg, main (Some xdf0) taxyear rnseed ssize = Uncaught (ValueError msg)).
Proof.
  intros Hd W0 Hdrop Hrand Hcons.
  assert (Hrows : nrows xdf3 = nrows xdf1).
  { rewrite (constrain_data_nrows _ _ Hcons).
    exact (randomize_data_nrows _ _ _ _ _ Hrand). }
  assert (W3 : wf xdf3).
  { apply (wf_constrain_data _ _ Hcons). apply (wf_randomize_data _ _ _ _ _ Hrand).
    exact (wf_drop_loop _ _ _ Hdrop W0). }
  pose proof (randomize_data_valid_seed _ _ _ _ _ Hrand) as Hseed.
  unfold main. rewrite Hdrop, Hrand, Hcons.
  unfold sample_and_write, sample. rewrite Hd, Hseed, Hrows. simpl negb. cbv iota.
  split.
  - intros [H0 Hn].
    destruct (ssize <? 0) eqn:E1; [apply Z.ltb_lt in E1; lia|].
    destruct (Z.of_nat (nrows xdf1) <? ssize) eqn:E2; [apply Z.ltb_lt in E2; lia|].
    simpl bind.
    destruct (choice_spec rnseed (nrows xdf1) (Z.to_nat ssize) ltac:(lia))
      as (Hlen & Hnd & Hlt).
    unfold setitem_list. simpl nrows.
    rewrite length_map, py_range_length.
    assert (Heq : Nat.eqb (Z.to_nat ssize)
                    (List.length (choice rnseed (nrows xdf1) (Z.to_nat ssize))) = true)
      by (rewrite Hlen; apply Nat.eqb_refl).
    rewrite Heq.
    do 3 eexists. split; [reflexivity|]. split; [reflexivity|]. simpl nrows.
    split; [rewrite Hlen; lia|]. split; [reflexivity|].
    split; [exact Hnd|]. split; [exact Hlt|].
    intros v Hv. simpl cols. rewrite lookup_replace_other by exact Hv.
    rewrite lookup_take_rows.
    destruct (lookup v (cols xdf3)) as [s|] eqn:Hs; simpl; [|reflexivity].
    eexists. split; [reflexivity|]. split; [apply series_len_take_rows|].
    intros j i Hj. apply series_nth_take_rows; [exact Hj|].
    rewrite (wf_lookup_length _ _ _ W3 Hs), Hrows.
    rewrite Forall_forall in Hlt. apply Hlt. eapply nth_error_In; exact Hj.
  - intros Hn.
    destruct (ssize <? 0) eqn:E1; [apply Z.ltb_lt in E1; lia|].
    destruct (Z.of_nat (nrows xdf1) <? ssize) eqn:E2; [|apply Z.ltb_ge in E2; lia].
    simpl. eexists; reflexivity.
Qed.

End CsvIn.

(** * The theorems at work

    The script on the tables of [Demo], with its generator. *)

Ltac distinct_names :=
  repeat (constructor; [simpl; intuition discriminate|]); constructor.

Lemma xdf3_randomize :
  randomize_data false [] nat Demo.mt_init Demo.normal Demo.xdf3 2013 42
  = Ok (Demo.xdf3_randomized, 6%nat).
Proof. vm_compute. reflexivity. Qed.

Lemma demo_choice_spec (seed : Z) (population n : nat) :
  (n <= population)%nat ->
  List.length (Demo.choice seed population n) = n /\
  NoDup (Demo.choice seed population n) /\
  Forall (fun i => (i < population)%nat) (Demo.choice seed population n).
Proof.
  intros H. unfold Demo.choice. split; [rewrite length_rev, length_seq; reflexivity|].
  split.
  - apply NoDup_rev, seq_NoDup.
  - apply Forall_forall. intros i Hi. apply in_rev in Hi. apply in_seq in Hi. lia.
Qed.

Lemma demo_drop_order : Permutation Demo.drop_order (DROP_VARS false).
Proof. apply Permutation_sym. exact (Permutation_rev (DROP_VARS false)). Qed.

(** C1, as stated, fails on [FLPDYR]: it is on the skip list, it held 2009
    in every row, and [randomize_data] leaves 2013 there. *)
Lemma skip_column_FLPDYR_overwritten :
  mem "FLPDYR" (SKIP_VARS false []) = true /\
  randomize_data false [] nat Demo.mt_init Demo.normal Demo.xdf3 2013 42
  = Ok (Demo.xdf3_randomized, 6%nat) /\
  lookup "FLPDYR" (cols Demo.xdf3) = Some (Int64 [2009; 2009; 2009]) /\
  lookup "FLPDYR" (cols Demo.xdf3_randomized) = Some (Int64 [2013; 2013; 2013]) /\
  lookup "FLPDYR" (cols Demo.xdf3_randomized) <> lookup "FLPDYR" (cols Demo.xdf3).
Proof.
  split; [reflexivity|]. split; [exact xdf3_randomize|].
  split; [reflexivity|]. split; [reflexivity|]. discriminate.
Qed.

Lemma skip_columns_kept_but_FLPDYR_witness :
  lookup "RECID" (cols Demo.xdf3_randomized) = lookup "RECID" (cols Demo.xdf3) /\
  lookup "FLPDYR" (cols Demo.xdf3_randomized) = Some (Int64 [2013; 2013; 2013]).
Proof.
  split.
  - exact (skip_columns_kept_but_FLPDYR false [] nat Demo.mt_init Demo.normal
             Demo.xdf3 Demo.xdf3_randomized 2013 42 6%nat "RECID"
             xdf3_randomize eq_refl).
  - exact (skip_columns_kept_but_FLPDYR false [] nat Demo.mt_init Demo.normal
             Demo.xdf3 Demo.xdf3_randomized 2013 42 6%nat "FLPDYR"
             xdf3_randomize eq_refl).
Defined.




Lemma zero_rows_stay_zero_witness :
  exists new,
    lookup "e00200" (cols Demo.xdf3_randomized) = Some new /\
    series_nth new 1 = Some (CInt 0).
Proof.
  apply (zero_rows_stay_zero false [] nat Demo.mt_init Demo.normal
           Demo.xdf3 Demo.xdf3_randomized 2013 42 6%nat "e00200"
           (Int64 [1000; 0; -50]) 1%nat (CInt 0)).
  - distinct_names.
  - vm_compute. reflexivity.
  - discriminate.
  - reflexivity.
  - reflexivity.
  - reflexivity.
  - reflexivity.
Defined.

(** C5, as stated, fails on a column with a value that no int64 holds:
    [1e19] and [5] are not below zero; the cast takes the rounded [1e19]
    to [INT64_MIN], so the rounded minimum is below zero, no floor is
    applied, and the first row comes out as [INT64_MIN]. *)
Lemma nonnegative_column_overflows :
  randomize_data false [] nat Demo.mt_init Demo.normal
    (mkDataFrame 2 [("e00300"%string, Float64 [1e19; 5]%float)]) 2013 42
  = Ok (mkDataFrame 2 [("e00300"%string, Int64 [-9223372036854775808; 10]);
                       ("FLPDYR"%string, Int64 [2013; 2013])], 2%nat) /\
  mem "e00300" (SKIP_VARS false []) = false /\
  cell_nonneg (CFloat 1e19) = true /\ cell_nonneg (CFloat 5) = true /\
  astype_int64 (round0 (Float64 [1e19; 5]%float)) = Ok [-9223372036854775808; 5] /\
  cell_nonneg (CInt (-9223372036854775808)) = false.
Proof. repeat split; vm_compute; reflexivity. Qed.

Lemma nonnegative_columns_stay_nonnegative_witness :
  exists new,
    lookup "e00600" (cols Demo.xdf1_randomized) = Some new /\
    forall i c, series_nth new i = Some c -> cell_nonneg c = true.
Proof.
  apply (nonnegative_columns_stay_nonnegative false [] nat Demo.mt_init Demo.normal
           Demo.xdf1 Demo.xdf1_randomized 2013 42 3%nat "e00600"
           (Float64 [100.5; 0; 90]%float)).
  - distinct_names.
  - vm_compute. reflexivity.
  - discriminate.
  - reflexivity.
  - reflexivity.
  - intros [|[|[|i]]] c H; simpl in H.
    1-3: inversion H; subst; split; vm_compute; reflexivity.
    destruct i; discriminate.
Defined.

Lemma run_dropped :
  drop_loop Demo.USABLE_READ_VARS Demo.drop_order Demo.puf = inl Demo.dropped.
Proof. vm_compute. reflexivity. Qed.

Lemma run_randomized :
  randomize_data false Demo.USABLE_READ_VARS nat Demo.mt_init Demo.normal
    Demo.dropped 2013 42
  = Ok (Demo.randomized, 39%nat).
Proof. vm_compute. reflexivity. Qed.

Lemma run_repaired : constrain_data false Demo.randomized = Ok Demo.repaired.
Proof. vm_compute. reflexivity. Qed.

Lemma run_dropped_wf : wf Demo.dropped.
Proof. split; [distinct_names | repeat constructor]. Qed.

(** The noise broke [e00600 >= e00650] in the third row; the repair
    restored it. *)
Lemma identities_restored_witness :
  (lookup "e00600" (cols Demo.randomized) = Some (Int64 [1185; 0; 155]) /\
   lookup "e00650" (cols Demo.randomized) = Some (Int64 [1048; 0; 202]) /\
   lookup "e00600" (cols Demo.repaired) = Some (Int64 [1185; 0; 202])) /\
  sum_identity Demo.repaired "e00200" "e00200p" "e00200s" /\
  sum_identity Demo.repaired "e00900" "e00900p" "e00900s" /\
  sum_identity Demo.repaired "e02100" "e02100p" "e02100s" /\
  dominance Demo.repaired "e00600" "e00650" /\
  dominance Demo.repaired "e01500" "e01700".
Proof.
  split; [repeat split; reflexivity|].
  exact (identities_restored false Demo.USABLE_READ_VARS nat Demo.mt_init Demo.normal
           Demo.dropped Demo.randomized Demo.repaired 2013 42 39%nat
           eq_refl run_dropped_wf run_randomized run_repaired).
Defined.

Lemma constrain_data_touches_five_columns_witness :
  nrows Demo.repaired = nrows Demo.randomized /\
  (forall v,
      ~ In v ["e00200"; "e00900"; "e02100"; "e00600"; "e01500"]%string ->
      lookup v (cols Demo.repaired) = lookup v (cols Demo.randomized)) /\
  (false = true -> Demo.repaired = Demo.randomized).
Proof.
  exact (constrain_data_touches_five_columns false Demo.randomized Demo.repaired
           run_repaired).
Defined.

(** C9, as stated, fails on the skip list and on the columns the
    constraints write: [MARS] is on the skip list and is no column of
    [Demo.puf], and the run ends with return code 0 and a CSV file; so does
    the run on [Demo.puf] without [e00200], which [constrain_data] then
    creates. *)
Lemma absent_columns_are_no_error :
  (In "MARS"%string (SKIP_VARS false Demo.USABLE_READ_VARS) /\
   ~ In "MARS"%string (columns Demo.puf) /\
   exists out,
     main false Demo.USABLE_READ_VARS nat Demo.mt_init Demo.normal Demo.choice
       Demo.drop_order (Some Demo.puf) 2013 42 2
     = Done 0 [] (Some ("x13.csv"%string, out))) /\
  (exists xdf out,
     drop Demo.puf "e00200" = Ok xdf /\
     ~ In "e00200"%string (columns xdf) /\
     main false Demo.USABLE_READ_VARS nat Demo.mt_init Demo.normal Demo.choice
       Demo.drop_order (Some xdf) 2013 42 2
     = Done 0 [] (Some ("x13.csv"%string, out)) /\
     In "e00200"%string (columns out)).
Proof.
  split.
  - split; [simpl; tauto|]. split; [simpl; intuition discriminate|].
    eexists. vm_compute. reflexivity.
  - eexists. eexists. split; [vm_compute; reflexivity|].
    split; [simpl; intuition discriminate|].
    split; [vm_compute; reflexivity|]. simpl. tauto.
Qed.

(** [Demo.xdf3] has no column [filer], which the drop set names. *)
Lemma missing_columns_are_fatal_witness :
  (exists w,
      In w (DROP_VARS false) /\ mem w Demo.USABLE_READ_VARS = false /\
      main false Demo.USABLE_READ_VARS nat Demo.mt_init Demo.normal Demo.choice
        Demo.drop_order (Some Demo.xdf3) 2013 42 2
      = Done 1 [already_dropped w] None) \/
  (exists e,
      main false Demo.USABLE_READ_VARS nat Demo.mt_init Demo.normal Demo.choice
        Demo.drop_order (Some Demo.xdf3) 2013 42 2
      = Uncaught e).
Proof.
  apply (missing_columns_are_fatal false Demo.USABLE_READ_VARS nat Demo.mt_init
           Demo.normal Demo.choice Demo.drop_order demo_drop_order
           Demo.xdf3 2013 42 2 "filer" eq_refl).
  left. split; [simpl; tauto|]. right. simpl. intuition discriminate.
Defined.

Lemma run_x13 :
  main false Demo.USABLE_READ_VARS nat Demo.mt_init Demo.normal Demo.choice
    Demo.drop_order (Some Demo.puf) 2013 42 2
  = Done 0 [] (Some ("x13.csv"%string, Demo.x13)).
Proof. vm_compute. reflexivity. Qed.

Lemma recid_is_one_to_n_witness :
  lookup "RECID" (cols Demo.x13) = Some (Int64 [1; 2]) /\
  0 = 0 /\ @nil string = [] /\ "x13.csv"%string = "x13.csv"%string.
Proof.
  exact (recid_is_one_to_n false Demo.USABLE_READ_VARS nat Demo.mt_init Demo.normal
           Demo.choice Demo.drop_order (Some Demo.puf) 2013 42 2 0 [] "x13.csv" Demo.x13
           run_x13).
Defined.

Lemma drop_loop_removes_only_named_witness :
  nrows Demo.dropped = nrows Demo.puf /\
  (forall v, In v Demo.drop_order -> lookup v (cols Demo.dropped) = None) /\
  (forall v, ~ In v Demo.drop_order ->
             lookup v (cols Demo.dropped) = lookup v (cols Demo.puf)).
Proof.
  exact (drop_loop_removes_only_named Demo.USABLE_READ_VARS Demo.drop_order
           Demo.puf Demo.dropped run_dropped).
Defined.

Lemma debug_mode_passes_values_through_witness :
  exists xdf' g xdf'',
    randomize_data true Demo.USABLE_READ_VARS nat Demo.mt_init Demo.normal
      Demo.puf 2013 42 = Ok (xdf', g) /\
    constrain_data true xdf' = Ok xdf'' /\
    xdf' = setitem_scalar Demo.puf "FLPDYR" 2013 /\
    g = Demo.mt_init 42 /\
    xdf'' = xdf'.
Proof.
  exists (setitem_scalar Demo.puf "FLPDYR" 2013), 0%nat,
    (setitem_scalar Demo.puf "FLPDYR" 2013).
  split; [vm_compute; reflexivity|]. split; [reflexivity|].
  apply (debug_mode_passes_values_through true Demo.USABLE_READ_VARS nat
           Demo.mt_init Demo.normal Demo.puf
           (setitem_scalar Demo.puf "FLPDYR" 2013)
           (setitem_scalar Demo.puf "FLPDYR" 2013) 2013 42 0%nat eq_refl).
  - intros v Hv. apply existsb_exists. exists v.
    split; [right; exact Hv | apply String.eqb_refl].
  - reflexivity.
  - vm_compute. reflexivity.
  - reflexivity.
Defined.

(** ** Shape, draws and failures of [randomize_data] *)

Lemma xdf1_randomize :
  randomize_data false [] nat Demo.mt_init Demo.normal Demo.xdf1 2013 42
  = Ok (Demo.xdf1_randomized, 3%nat).
Proof. vm_compute. reflexivity. Qed.

Lemma demo_normal_length (n pos : nat) (loc scale : float) :
  List.length (fst (Demo.normal pos loc scale n)) = n.
Proof. unfold Demo.normal. simpl. rewrite length_map, length_seq. reflexivity. Qed.

Lemma demo_puf_wf : wf Demo.puf.
Proof. split; [distinct_names | repeat constructor]. Qed.

(** [Demo.xdf1] has no [FLPDYR]: it comes last in the randomized table. *)
Lemma randomize_data_keeps_shape_witness :
  nrows Demo.xdf1_randomized = nrows Demo.xdf1 /\
  columns Demo.xdf1_randomized = columns Demo.xdf1 ++ ["FLPDYR"%string] /\
  (wf Demo.xdf1 -> wf Demo.xdf1_randomized).
Proof.
  exact (randomize_data_keeps_shape false [] nat Demo.mt_init Demo.normal
           Demo.xdf1 Demo.xdf1_randomized 2013 42 3%nat xdf1_randomize).
Defined.

(** Two of the four columns of [Demo.xdf3] are randomized: two calls of
    three draws each. *)
Lemma randomize_data_draws_once_per_column_witness :
  6%nat =
    after_draws nat Demo.normal
      (1.0 + ANNUAL_DRIFT * Float64.of_Z (2013 - 2009))%float NORM_STD_DEV
      3 (Demo.mt_init 42) 2.
Proof.
  exact (randomize_data_draws_once_per_column false [] nat Demo.mt_init Demo.normal
           Demo.xdf3 Demo.xdf3_randomized 2013 42 6%nat xdf3_randomize).
Defined.

(** A seed below zero. *)
Lemma randomize_data_raises_only_witness :
  randomize_data false [] nat Demo.mt_init Demo.normal Demo.xdf3 2013 (-1)
  = Raise (ValueError "Seed must be between 0 and 2**32 - 1") /\
  ((ValueError "Seed must be between 0 and 2**32 - 1" = OverflowError /\
    is_infinity (Float64.of_Z (2013 - 2009)) = true) \/
   (ValueError "Seed must be between 0 and 2**32 - 1"
    = ValueError "Seed must be between 0 and 2**32 - 1" /\
    valid_seed (-1) = false) \/
   ValueError "Seed must be between 0 and 2**32 - 1" = IntCastingNaNError).
Proof.
  split; [vm_compute; reflexivity|].
  apply (randomize_data_raises_only false [] nat Demo.mt_init Demo.normal
           Demo.xdf3 2013 (-1)).
  - split; [distinct_names | repeat constructor].
  - intros g nmean nsdev. apply demo_normal_length.
  - vm_compute. reflexivity.
Defined.

(** ** [constrain_data] *)

(** [Demo.xdf3] has none of the columns the constraints read: the first
    one read is the one reported. *)
Lemma constrain_data_needs_its_ten_columns_witness :
  constrain_data false Demo.xdf3 = Raise (KeyError "e00200p").
Proof.
  exact (constrain_data_needs_its_ten_columns false Demo.xdf3 eq_refl).
Defined.

Lemma constrain_data_idempotent_witness :
  constrain_data false Demo.repaired = Ok Demo.repaired.
Proof.
  exact (constrain_data_idempotent false Demo.randomized Demo.repaired run_repaired).
Defined.

(** ** The loop over the drop set *)

Lemma drop_loop_succeeds_iff_witness :
  exists xdf', drop_loop Demo.USABLE_READ_VARS Demo.drop_order Demo.puf = inl xdf'.
Proof.
  apply (proj2 (drop_loop_succeeds_iff Demo.USABLE_READ_VARS Demo.drop_order Demo.puf
                  ltac:(distinct_names))).
  intros v Hv. simpl in Hv.
  repeat (destruct Hv as [<-|Hv]; [split; [reflexivity | simpl; tauto]|]).
  destruct Hv.
Defined.

(** The drop set in the order of the source and in the reverse order. *)
Lemma drop_loop_order_irrelevant_witness :
  drop_loop Demo.USABLE_READ_VARS (DROP_VARS false) Demo.puf = inl Demo.dropped /\
  Demo.dropped = Demo.dropped.
Proof.
  split; [vm_compute; reflexivity|].
  apply (drop_loop_order_irrelevant Demo.USABLE_READ_VARS Demo.drop_order
           (DROP_VARS false) Demo.puf Demo.dropped Demo.dropped demo_drop_order
           run_dropped).
  vm_compute. reflexivity.
Defined.

(** ** Runs of the script *)

Lemma script_x13 :
  script false Demo.USABLE_READ_VARS nat Demo.mt_init Demo.normal Demo.choice
    Demo.drop_order (Some Demo.puf) 2013 42 2
  = Done 0 [] (Some ("x13.csv"%string, Demo.x13)).
Proof. vm_compute. reflexivity. Qed.

Lemma script_writes_all_or_nothing_witness :
  (0 = 0 /\ @nil string = [] /\
   exists out,
     Some ("x13.csv"%string, Demo.x13)
     = Some (("x" ++ str (2013 mod 100) ++ ".csv")%string, out)) \/
  (0 = 1 /\ @nil string <> [] /\ Some ("x13.csv"%string, Demo.x13) = None).
Proof.
  exact (script_writes_all_or_nothing false Demo.USABLE_READ_VARS nat Demo.mt_init
           Demo.normal Demo.choice Demo.drop_order (Some Demo.puf) 2013 42 2
           0 [] (Some ("x13.csv"%string, Demo.x13)) script_x13).
Defined.


Lemma dropped_columns_not_written_witness :
  lookup "s006" (cols Demo.puf) = Some (Float64 [150.25; 98.5; 1203.75]%float) /\
  lookup "s006" (cols Demo.x13) = None.
Proof.
  split; [reflexivity|].
  apply (dropped_columns_not_written false Demo.USABLE_READ_VARS nat Demo.mt_init
           Demo.normal Demo.choice Demo.drop_order demo_drop_order (Some Demo.puf)
           2013 42 2 0 [] "x13.csv" Demo.x13 "s006" run_x13).
  simpl. tauto.
Defined.

Lemma written_table_has_tax_year_witness :
  lookup "FLPDYR" (cols Demo.puf) = Some (Int64 [2009; 2009; 2009]) /\
  lookup "FLPDYR" (cols Demo.x13) = Some (Int64 [2013; 2013]).
Proof.
  split; [reflexivity|].
  exact (written_table_has_tax_year false Demo.USABLE_READ_VARS nat Demo.mt_init
           Demo.normal Demo.choice demo_choice_spec Demo.drop_order (Some Demo.puf)
           2013 42 2 0 [] "x13.csv" Demo.x13 eq_refl run_x13).
Defined.

Lemma written_table_keeps_identities_witness :
  sum_identity Demo.x13 "e00200" "e00200p" "e00200s" /\
  sum_identity Demo.x13 "e00900" "e00900p" "e00900s" /\
  sum_identity Demo.x13 "e02100" "e02100p" "e02100s" /\
  dominance Demo.x13 "e00600" "e00650" /\
  dominance Demo.x13 "e01500" "e01700".
Proof.
  exact (written_table_keeps_identities false Demo.USABLE_READ_VARS nat Demo.mt_init
           Demo.normal Demo.choice demo_choice_spec Demo.drop_order Demo.puf
           2013 42 2 0 [] "x13.csv" Demo.x13 eq_refl demo_puf_wf run_x13).
Defined.



(** A sample of four rows from the three of [Demo.puf]. *)
Lemma script_uncaught_exceptions_witness :
  script false Demo.USABLE_READ_VARS nat Demo.mt_init Demo.normal Demo.choice
    Demo.drop_order (Some Demo.puf) 2013 42 4
  = Uncaught
      (ValueError "Cannot take a larger sample than population when 'replace=False'") /\
  ((exists w,
       ValueError "Cannot take a larger sample than population when 'replace=False'"
       = KeyError w /\
       lookup w (cols Demo.puf) = None /\
       (In w (DROP_VARS false) \/ (false = false /\ In w CONSTRAINT_READS))) \/
   ValueError "Cannot take a larger sample than population when 'replace=False'"
   = IntCastingNaNError \/
   (false = false /\ Z.of_nat (nrows Demo.puf) < 4 /\
    ValueError "Cannot take a larger sample than population when 'replace=False'"
    = ValueError "Cannot take a larger sample than population when 'replace=False'")).
Proof.
  split; [vm_compute; reflexivity|].
  apply (script_uncaught_exceptions false Demo.USABLE_READ_VARS nat Demo.mt_init
           Demo.normal Demo.choice demo_choice_spec Demo.drop_order demo_drop_order
           Demo.puf 2013 42 4).
  - exact demo_puf_wf.
  - intros g nmean nsdev. apply demo_normal_length.
  - vm_compute. reflexivity.
Defined.

(** ** The sample *)

(** Two of the three rows of [Demo.puf]: the sample takes the rows at
    positions 2 and 1, in that order, so [e00200], which the repair left
    as 123240, 0, 169345, is 169345, 0 in the file. *)
Lemma sample_size_exact_witness :
  (exists name out idx,
      main false Demo.USABLE_READ_VARS nat Demo.mt_init Demo.normal Demo.choice
        Demo.drop_order (Some Demo.puf) 2013 42 2
      = Done 0 [] (Some (name, out)) /\
      idx = Demo.choice 42 (nrows Demo.dropped) (Z.to_nat 2) /\
      Z.of_nat (nrows out) = 2 /\
      List.length idx = nrows out /\
      NoDup idx /\
      Forall (fun i => (i < nrows Demo.dropped)%nat) idx /\
      forall v, v <> "RECID"%string ->
        match lookup v (cols Demo.repaired) with
        | Some s =>
            exists s',
              lookup v (cols out) = Some s' /\
              series_len s' = nrows out /\
              forall j i, nth_error idx j = Some i ->
                          series_nth s' j = series_nth s i
        | None => lookup v (cols out) = None
        end) /\
  (exists msg,
      main false Demo.USABLE_READ_VARS nat Demo.mt_init Demo.normal Demo.choice
        Demo.drop_order (Some Demo.puf) 2013 42 4
      = Uncaught (ValueError msg)) /\
  main false Demo.USABLE_READ_VARS nat Demo.mt_init Demo.normal Demo.choice
    Demo.drop_order (Some Demo.puf) 2013 42 2
  = Done 0 [] (Some ("x13.csv"%string, Demo.x13)) /\
  Demo.choice 42 (nrows Demo.dropped) (Z.to_nat 2) = [2; 1]%nat /\
  lookup "e00200" (cols Demo.repaired) = Some (Int64 [123240; 0; 169345]) /\
  lookup "e00200" (cols Demo.x13) = Some (Int64 [169345; 0]).
Proof.
  split.
  { apply (proj1 (sample_size_exact false Demo.USABLE_READ_VARS nat Demo.mt_init
                    Demo.normal Demo.choice demo_choice_spec Demo.drop_order
                    Demo.puf Demo.dropped Demo.randomized Demo.repaired
                    39%nat 2013 42 2
                    eq_refl demo_puf_wf run_dropped run_randomized run_repaired)).
    simpl. lia. }
  split.
  { apply (proj2 (sample_size_exact false Demo.USABLE_READ_VARS nat Demo.mt_init
                    Demo.normal Demo.choice demo_choice_spec Demo.drop_order
                    Demo.puf Demo.dropped Demo.randomized Demo.repaired
                    39%nat 2013 42 4
                    eq_refl demo_puf_wf run_dropped run_randomized run_repaired)).
    simpl. lia. }
  split; [exact run_x13|].
  repeat split; reflexivity.
Defined.
